(** * Bond metrics calculator: a shallow embedding of
      [scripts/python/calculate_bond_metrics.py] and its properties.

    The script reads a JSON payload, computes pricing and risk figures for
    every bond of the payload and writes the augmented records back as JSON.

    Layout of the development:
    - [Py]      : the fragment of the Python run time the script relies on
                  (exceptions, JSON values, insertion-ordered dictionaries,
                  the built-ins [float], [int], [dict.get], iteration);
    - [Bond]    : [calculate_metrics] and [main], written against an abstract
                  float arithmetic [PyFloat];
    - [Exact]   : an instance of that arithmetic over the canonical rationals
                  [Qc], an idealisation used to exhibit inputs;
    - [B64]     : the arithmetic of the interpreter, IEEE 754 binary64;
    - the properties, first those that hold for every arithmetic, then those
      of binary64. *)

From Stdlib Require Import ZArith QArith Qcanon List String Ascii Bool Lia.
From Stdlib Require Floats.
Import ListNotations.

Local Open Scope string_scope.
Local Open Scope Z_scope.

(** ** The Python run time *)

Module Py.

(** The exceptions that can escape from the script. *)
Inductive exn : Type :=
| KeyError
| TypeError
| ValueError
| OverflowError
| ZeroDivisionError
| AttributeError.

(** A computation either returns or raises. *)
Inductive result (A : Type) : Type :=
| Ok (a : A)
| Raise (e : exn).
Arguments Ok {A} a.
Arguments Raise {A} e.

Definition bind {A B : Type} (m : result A) (k : A -> result B) : result B :=
  match m with
  | Ok a => k a
  | Raise e => Raise e
  end.

Notation "x <- m ;; k" := (bind m (fun x => k))
  (at level 61, m at next level, right associativity).

(** [[f(x) for x in xs]]: elements are evaluated in order, the first
    exception aborts the comprehension. *)
Fixpoint mapM {A B : Type} (f : A -> result B) (xs : list A)
  : result (list B) :=
  match xs with
  | [] => Ok []
  | x :: xs' => y <- f x ;; ys <- mapM f xs' ;; Ok (y :: ys)
  end.

(** A [for] loop threading a state, aborted by the first exception. *)
Fixpoint foldM {A S : Type} (body : S -> A -> result S) (xs : list A) (s : S)
  : result S :=
  match xs with
  | [] => Ok s
  | x :: xs' => s' <- body s x ;; foldM body xs' s'
  end.

Definition raises {A : Type} (m : result A) : Prop :=
  exists e, m = Raise e.

Definition returns {A : Type} (m : result A) : Prop :=
  exists a, m = Ok a.

#[local] Set Warnings "-register-all".

(** The values [json.loads] builds and [json.dumps] prints, over a type
    [num] of floats.  A Python [dict] keeps its keys in insertion order, so
    an object is an association list. *)
Inductive value (num : Type) : Type :=
| JNull
| JBool (b : bool)
| JInt (n : Z)
| JFloat (x : num)
| JStr (s : string)
| JList (l : list (value num))
| JObj (o : list (string * value num)).
Arguments JNull {num}.
Arguments JBool {num} b.
Arguments JInt {num} n.
Arguments JFloat {num} x.
Arguments JStr {num} s.
Arguments JList {num} l.
Arguments JObj {num} o.

Definition dict (num : Type) : Type := list (string * value num).

(** [d.get(k)] *)
Fixpoint dict_get {num : Type} (d : dict num) (k : string)
  : option (value num) :=
  match d with
  | [] => None
  | (k', v) :: d' => if String.eqb k' k then Some v else dict_get d' k
  end.

(** [d[k] = v]: an existing key keeps its position, a new key goes last. *)
Fixpoint dict_set {num : Type} (d : dict num) (k : string) (v : value num)
  : dict num :=
  match d with
  | [] => [(k, v)]
  | (k', v') :: d' =>
      if String.eqb k' k then (k', v) :: d' else (k', v') :: dict_set d' k v
  end.

(** [range(lo, hi)] *)
Definition range (lo hi : Z) : list Z :=
  map (fun i => lo + Z.of_nat i) (seq 0 (Z.to_nat (hi - lo))).

(** The float arithmetic of the interpreter.  Each field is the operation
    the script invokes; those that can raise return a [result]. *)
Class PyFloat (num : Type) : Type := {
  (** a float literal of the source, given by its decimal value *)
  lit : Q -> num;
  (** [x + y] and [x * y] *)
  add : num -> num -> num;
  mul : num -> num -> num;
  (** [x / y], [ZeroDivisionError] on a zero divisor *)
  div : num -> num -> result num;
  (** [math.pow(x, n)] for an integer [n] *)
  pow : num -> Z -> result num;
  (** [x <= y] *)
  leb : num -> num -> bool;
  (** an integer operand of a mixed operation, and [float(n)] *)
  of_int : Z -> result num;
  (** [int(x)]: truncation toward zero *)
  trunc : num -> result Z;
  (** [float(s)] and [int(s)] on a string *)
  float_of_string : string -> result num;
  int_of_string : string -> result Z
}.

Section Builtins.
Context {num : Type} `{PyFloat num}.

(** [v[k]] for a string [k]: only a [dict] can be indexed by a string. *)
Definition subscript (v : value num) (k : string) : result (value num) :=
  match v with
  | JObj o =>
      match dict_get o k with
      | Some x => Ok x
      | None => Raise KeyError
      end
  | _ => Raise TypeError
  end.

(** [float(v)] *)
Definition py_float (v : value num) : result num :=
  match v with
  | JFloat x => Ok x
  | JInt n => of_int n
  | JBool b => of_int (if b then 1 else 0)
  | JStr s => float_of_string s
  | JNull | JList _ | JObj _ => Raise TypeError
  end.

(** [int(v)] *)
Definition py_int (v : value num) : result Z :=
  match v with
  | JInt n => Ok n
  | JFloat x => trunc x
  | JBool b => Ok (if b then 1 else 0)
  | JStr s => int_of_string s
  | JNull | JList _ | JObj _ => Raise TypeError
  end.

(** [v == s] for a string literal [s] *)
Definition eq_str (v : value num) (s : string) : bool :=
  match v with
  | JStr s' => String.eqb s' s
  | _ => false
  end.

(** Lists and dictionaries cannot be hashed, hence cannot be looked up. *)
Definition hashable (v : value num) : bool :=
  match v with
  | JList _ | JObj _ => false
  | _ => true
  end.

(** [table.get(key, default)] for a table with string keys *)
Definition table_get (table : list (string * Q)) (key : value num)
    (default : Q) : result num :=
  match key with
  | JList _ | JObj _ => Raise TypeError
  | JStr s =>
      match find (fun kv => String.eqb (fst kv) s) table with
      | Some kv => Ok (lit (snd kv))
      | None => Ok (lit default)
      end
  | _ => Ok (lit default)
  end.

(** [for x in v]: the items a loop over [v] visits *)
Definition iterate (v : value num) : result (list (value num)) :=
  match v with
  | JList l => Ok l
  | JObj o => Ok (map (fun kv => JStr (fst kv)) o)
  | JStr s => Ok (map (fun c => JStr (String c EmptyString)) (list_ascii_of_string s))
  | JNull | JBool _ | JInt _ | JFloat _ => Raise TypeError
  end.

(** [sum(xs)] over floats *)
Definition py_sum (xs : list num) : num := fold_left add xs (lit 0).

End Builtins.

End Py.

(** ** The calculator *)

Module Bond.
Import Py.

(** Rating -> probability of default, as a fraction. *)
Definition RATING_PD : list (string * Q) :=
  [ ("AAA", 0.0002); ("AA+", 0.0003); ("AA", 0.0005); ("AA-", 0.0008);
    ("A+", 0.0012); ("A", 0.0018); ("A-", 0.0025);
    ("BBB+", 0.004); ("BBB", 0.007); ("BBB-", 0.012);
    ("BB+", 0.02); ("BB", 0.035); ("B+", 0.06) ]%Q.

(** Sector -> loss given default, as a fraction. *)
Definition SECTOR_LGD : list (string * Q) :=
  [ ("Government", 0.05); ("Banking", 0.45); ("Technology", 0.40);
    ("Healthcare", 0.35); ("Energy", 0.50); ("Utilities", 0.35);
    ("Telecom", 0.45); ("Industrials", 0.40); ("Consumer", 0.35);
    ("Financial Services", 0.40) ]%Q.

(** The keys [calculate_metrics] writes into its result. *)
Definition computed_keys : list string :=
  [ "marketPrice"; "macaulayDuration"; "duration"; "convexity"; "pv01";
    "dv01"; "cr01"; "pd"; "lgd"; "expectedLoss"; "cashflows" ].

Section Calculator.
Context {num : Type} `{PyFloat num}.

(** One entry of the [cashflows] list: the dictionary literal of the loop,
    whose keys are fixed. *)
Record cashflow : Type := {
  year : Z;
  coupon : num;
  principal : num;
  total : num;
  discounted : num
}.

Definition cashflow_value (cf : cashflow) : value num :=
  JObj [ ("year", JInt (year cf));
         ("coupon", JFloat (coupon cf));
         ("principal", JFloat (principal cf));
         ("total", JFloat (total cf));
         ("discounted", JFloat (discounted cf)) ].

(** The variables the [for] loop updates. *)
Record loop_state : Type := {
  cashflows : list cashflow;
  market_price : num
}.

Definition loop_init : loop_state :=
  {| cashflows := []; market_price := lit 0 |}.

(** The body of [for year in range(1, maturity + 1)]. *)
Definition loop_body (face_value annual_coupon ytm : num) (maturity : Z)
    (st : loop_state) (y : Z) : result loop_state :=
  let principal := if y =? maturity then face_value else lit 0 in
  let coupon := annual_coupon in
  let total := add coupon principal in
  p <- pow (add (lit 1) ytm) y ;;
  discounted <- div total p ;;
  Ok {| market_price := add (market_price st) discounted;
        cashflows := cashflows st ++
          [ {| year := y; coupon := coupon; principal := principal;
               total := total; discounted := discounted |} ] |}.

(** [sum(w(cf["year"]) * cf["discounted"] for cf in cashflows)] for an
    integer weight [w] of the year. *)
Definition weighted_sum (w : Z -> Z) (cfs : list cashflow) : result num :=
  terms <- mapM (fun cf => k <- of_int (w (year cf)) ;;
                           Ok (mul k (discounted cf))) cfs ;;
  Ok (py_sum terms).

(** The three figures of the [if market_price <= 0] statement. *)
Definition durations (ytm : num) (st : loop_state)
  : result (num * num * num) :=
  if leb (market_price st) (lit 0) then
    Ok (lit 0, lit 0, lit 0)
  else
    s1 <- weighted_sum (fun y => y) (cashflows st) ;;
    macaulay_duration <- div s1 (market_price st) ;;
    duration <- div macaulay_duration (add (lit 1) ytm) ;;
    s2 <- weighted_sum (fun y => y * (y + 1)) (cashflows st) ;;
    convexity <- div s2 (mul (mul (market_price st) (add (lit 1) ytm))
                             (add (lit 1) ytm)) ;;
    Ok (macaulay_duration, duration, convexity).

(** [dict(bond)] *)
Definition dict_copy (bond : value num) : result (dict num) :=
  match bond with
  | JObj o => Ok o
  | _ => Raise TypeError
  end.

Definition calculate_metrics (bond : value num) : result (value num) :=
  v_face <- subscript bond "faceValue" ;;
  face_value <- py_float v_face ;;
  v_coupon <- subscript bond "couponRate" ;;
  coupon_rate <- py_float v_coupon ;;
  v_ytm <- subscript bond "yieldToMaturity" ;;
  ytm_pct <- py_float v_ytm ;;
  ytm <- div ytm_pct (lit 100) ;;
  v_maturity <- subscript bond "maturityYears" ;;
  maturity <- py_int v_maturity ;;
  bond_type <- subscript bond "type" ;;
  rating <- subscript bond "rating" ;;
  sector <- subscript bond "sector" ;;

  coupon_frac <- div coupon_rate (lit 100) ;;
  let annual_coupon := mul face_value coupon_frac in
  st <- foldM (loop_body face_value annual_coupon ytm maturity)
              (range 1 (maturity + 1)) loop_init ;;
  let market_price := market_price st in

  mdc <- durations ytm st ;;
  let '(macaulay_duration, duration, convexity) := mdc in

  let pv01 := mul (mul duration market_price) (lit 0.0001) in
  let dv01 := pv01 in
  let cr01 := if eq_str bond_type "Corporate"
              then mul (mul duration market_price) (lit 0.0001)
              else lit 0 in

  pd_frac <- table_get RATING_PD rating 0.001 ;;
  let pd := mul pd_frac (lit 100) in
  lgd_frac <- table_get SECTOR_LGD sector 0.40 ;;
  let lgd := mul lgd_frac (lit 100) in
  pd_back <- div pd (lit 100) ;;
  lgd_back <- div lgd (lit 100) ;;
  let expected_loss := mul (mul pd_back lgd_back) market_price in

  out <- dict_copy bond ;;
  let out := dict_set out "marketPrice" (JFloat market_price) in
  let out := dict_set out "macaulayDuration" (JFloat macaulay_duration) in
  let out := dict_set out "duration" (JFloat duration) in
  let out := dict_set out "convexity" (JFloat convexity) in
  let out := dict_set out "pv01" (JFloat pv01) in
  let out := dict_set out "dv01" (JFloat dv01) in
  let out := dict_set out "cr01" (JFloat cr01) in
  let out := dict_set out "pd" (JFloat pd) in
  let out := dict_set out "lgd" (JFloat lgd) in
  let out := dict_set out "expectedLoss" (JFloat expected_loss) in
  let out := dict_set out "cashflows"
               (JList (map cashflow_value (cashflows st))) in
  Ok (JObj out).

(** *** The program *)

(** [json.loads] and [json.dumps] are the interpreter's; the program is
    modelled for every parser and printer. *)
Variable loads : string -> result (value num).
Variable dumps : value num -> string.

(** The two standard streams: what is left to read, what has been written. *)
Record world : Type := {
  stdin : string;
  stdout : string
}.

(** [payload.get("bonds", [])]: only a dictionary has a [get] method. *)
Definition payload_bonds (payload : value num) : result (value num) :=
  match payload with
  | JObj o =>
      match dict_get o "bonds" with
      | Some bonds => Ok bonds
      | None => Ok (JList [])
      end
  | _ => Raise AttributeError
  end.

(** The value [main] hands to [json.dumps], from the text it has read. *)
Definition main_result (raw : string) : result (value num) :=
  payload <- loads (if String.eqb raw "" then "{}" else raw) ;;
  bonds <- payload_bonds payload ;;
  items <- iterate bonds ;;
  results <- mapM calculate_metrics items ;;
  Ok (JObj [("bonds", JList results)]).

(** [main]: the outcome and the streams afterwards.  The only write is the
    last statement. *)
Definition main (w : world) : result unit * world :=
  let raw := stdin w in
  let w := {| stdin := ""; stdout := stdout w |} in
  match main_result raw with
  | Ok result =>
      (Ok tt, {| stdin := stdin w; stdout := stdout w ++ dumps result |})
  | Raise e => (Raise e, w)
  end.

End Calculator.

Arguments cashflow : clear implicits.
Arguments loop_state : clear implicits.

End Bond.

(** ** Exact arithmetic *)

(** The floats read as exact rational numbers: no rounding, no overflow,
    no infinities, no NaN.  This is not the arithmetic of the interpreter
    (that is [B64] below): it serves to exhibit bonds on which the
    hypotheses of the statements proved for every arithmetic hold. *)
Module Exact.
Import Py.

Local Open Scope Qc_scope.

Definition is_zero (x : Qc) : bool := Qc_eq_bool x 0.

Definition qc_div (x y : Qc) : result Qc :=
  if is_zero y then Raise ZeroDivisionError else Ok (x / y).

(** [math.pow] raises [ValueError] on a zero base with a negative exponent. *)
Definition qc_pow (x : Qc) (n : Z) : result Qc :=
  if (0 <=? n)%Z then Ok (x ^ Z.to_nat n)
  else if is_zero x then Raise ValueError
  else Ok (/ (x ^ Z.to_nat (- n))).

Definition qc_leb (x y : Qc) : bool := Qle_bool x y.

Definition qc_of_int (n : Z) : result Qc := Ok (Q2Qc (inject_Z n)).

Definition qc_trunc (x : Qc) : result Z :=
  Ok (Z.quot (Qnum x) (Zpos (Qden x))).

(** Numeric strings.  This instance reads plain decimal literals, an
    optional sign followed by digits with at most one decimal point, blanks
    around them ignored; every other text is a [ValueError]. *)
Definition is_space (c : ascii) : bool :=
  let n := nat_of_ascii c in
  (Nat.eqb n 32 || (Nat.leb 9 n && Nat.leb n 13))%bool.

Fixpoint lstrip (cs : list ascii) : list ascii :=
  match cs with
  | c :: cs' => if is_space c then lstrip cs' else cs
  | [] => []
  end.

Definition strip (cs : list ascii) : list ascii :=
  rev (lstrip (rev (lstrip cs))).

Definition digit_of (c : ascii) : option Z :=
  let n := nat_of_ascii c in
  if (Nat.leb 48 n && Nat.leb n 57)%bool
  then Some (Z.of_nat n - 48)%Z else None.

Fixpoint digits (cs : list ascii) (acc : Z) : option Z :=
  match cs with
  | [] => Some acc
  | c :: cs' =>
      match digit_of c with
      | Some d => digits cs' (10 * acc + d)%Z
      | None => None
      end
  end.

Definition split_sign (cs : list ascii) : Z * list ascii :=
  match cs with
  | "-"%char :: cs' => ((-1)%Z, cs')
  | "+"%char :: cs' => (1%Z, cs')
  | _ => (1%Z, cs)
  end.

Fixpoint split_point (cs : list ascii) : list ascii * option (list ascii) :=
  match cs with
  | [] => ([], None)
  | c :: cs' =>
      if Ascii.eqb c "."%char then ([], Some cs')
      else let '(ip, fp) := split_point cs' in (c :: ip, fp)
  end.

Definition qc_int_of_string (s : string) : result Z :=
  let '(sg, cs) := split_sign (strip (list_ascii_of_string s)) in
  match cs with
  | [] => Raise ValueError
  | _ =>
      match digits cs 0 with
      | Some n => Ok (sg * n)%Z
      | None => Raise ValueError
      end
  end.

Definition qc_float_of_string (s : string) : result Qc :=
  let '(sg, cs) := split_sign (strip (list_ascii_of_string s)) in
  let '(ip, fp) := split_point cs in
  let fp := match fp with Some l => l | None => [] end in
  match (ip ++ fp)%list with
  | [] => Raise ValueError
  | _ =>
      match digits (ip ++ fp)%list 0 with
      | Some n =>
          Ok (Q2Qc (inject_Z (sg * n) / inject_Z (10 ^ Z.of_nat (List.length fp)))%Q)
      | None => Raise ValueError
      end
  end.

#[export] Instance QcFloat : PyFloat Qc := {|
  lit := Q2Qc;
  add := Qcplus;
  mul := Qcmult;
  div := qc_div;
  pow := qc_pow;
  leb := qc_leb;
  of_int := qc_of_int;
  trunc := qc_trunc;
  float_of_string := qc_float_of_string;
  int_of_string := qc_int_of_string
|}.

(** [x] lies within [tol] of [target]. *)
Definition near (x : option Qc) (target tol : Q) : bool :=
  match x with
  | Some x => (Qle_bool (target - tol) x && Qle_bool x (target + tol))%bool
  | None => false
  end.

End Exact.

(** ** Binary64 arithmetic *)

(** The arithmetic of CPython: a [float] is an IEEE 754 binary64 number,
    the kernel's primitive float.  Addition, multiplication, division and
    comparison are the primitive, correctly rounded operations.  What the
    interpreter takes from libraries is left abstract: the [pow] of the C
    library, to which [math.pow] hands finite arguments, and the parsers
    behind [float(s)] and [int(s)]. *)
Module B64.
Import Py.
Import SpecFloat FloatOps.

Abbreviation float := PrimFloat.float.

Class runtime : Type := {
  libm_pow : float -> float -> float;
  parse_float : string -> result float;
  parse_int : string -> result Z
}.

(** The integer [n] rounded to the nearest float, ties to even. *)
Definition round_Z (n : Z) : spec_float := binary_normalize prec emax n 0 false.

Definition of_Z (n : Z) : float := SF2Prim (round_Z n).

(** [float(n)]: [OverflowError] when [n] rounds beyond the largest float. *)
Definition b64_of_int (n : Z) : result float :=
  match round_Z n with
  | S754_infinity _ => Raise OverflowError
  | sf => Ok (SF2Prim sf)
  end.

(** A decimal literal of the source: the quotient of its numerator and its
    denominator, both exact as floats for the literals of the script, so
    the division rounds the decimal value once, to the nearest float. *)
Definition b64_lit (q : Q) : float :=
  PrimFloat.div (of_Z (Qnum q)) (of_Z (Zpos (Qden q))).

(** [int(x)]: truncation toward zero, [ValueError] on NaN and
    [OverflowError] on an infinity. *)
Definition b64_trunc (x : float) : result Z :=
  match Prim2SF x with
  | S754_nan => Raise ValueError
  | S754_infinity _ => Raise OverflowError
  | S754_zero _ => Ok 0
  | S754_finite s m e =>
      let a := if 0 <=? e then Zpos m * 2 ^ e else Zpos m / 2 ^ (- e) in
      Ok (if s then - a else a)
  end.

(** [x / y]: the test of the divisor is [y == 0.0], true of both zeros. *)
Definition b64_div (x y : float) : result float :=
  if PrimFloat.eqb y PrimFloat.zero then Raise ZeroDivisionError
  else Ok (PrimFloat.div x y).

(** [fmod(fabs(y), 2.0) == 1.0]: [y] is an odd integer. *)
Definition odd_integer (y : float) : bool :=
  match b64_trunc (PrimFloat.abs y) with
  | Ok t => Z.odd t && PrimFloat.eqb (of_Z t) (PrimFloat.abs y)
  | Raise _ => false
  end.

(** [math.pow(x, y)] on two floats.  Infinities and NaN are handled by the
    interpreter itself; finite arguments go to the C library, and a result
    that is NaN or infinite becomes an exception. *)
Definition math_pow (libm : float -> float -> float) (x y : float)
  : result float :=
  if PrimFloat.is_finite x && PrimFloat.is_finite y then
    let r := libm x y in
    if PrimFloat.is_nan r then Raise ValueError
    else if PrimFloat.is_infinity r then
      if PrimFloat.eqb x PrimFloat.zero then Raise ValueError
      else Raise OverflowError
    else Ok r
  else if PrimFloat.is_nan x then
    Ok (if PrimFloat.eqb y PrimFloat.zero then PrimFloat.one else x)
  else if PrimFloat.is_nan y then
    Ok (if PrimFloat.eqb x PrimFloat.one then PrimFloat.one else y)
  else if PrimFloat.is_infinity x then
    if PrimFloat.ltb PrimFloat.zero y then
      Ok (if odd_integer y then x else PrimFloat.abs x)
    else if PrimFloat.eqb y PrimFloat.zero then Ok PrimFloat.one
    else Ok (if odd_integer y && PrimFloat.get_sign x
             then PrimFloat.neg_zero else PrimFloat.zero)
  else
    if PrimFloat.eqb (PrimFloat.abs x) PrimFloat.one then Ok PrimFloat.one
    else if PrimFloat.ltb PrimFloat.zero y
            && PrimFloat.ltb PrimFloat.one (PrimFloat.abs x) then Ok y
    else if PrimFloat.ltb y PrimFloat.zero
            && PrimFloat.ltb (PrimFloat.abs x) PrimFloat.one
    then Ok (PrimFloat.opp y)
    else Ok PrimFloat.zero.

(** [math.pow(x, n)] for an integer [n], converted to a float first. *)
Definition b64_pow (libm : float -> float -> float) (x : float) (n : Z)
  : result float :=
  y <- b64_of_int n ;; math_pow libm x y.

#[export] Instance binary64 {R : runtime} : PyFloat float := {|
  lit := b64_lit;
  add := PrimFloat.add;
  mul := PrimFloat.mul;
  div := b64_div;
  pow := b64_pow libm_pow;
  leb := PrimFloat.leb;
  of_int := b64_of_int;
  trunc := b64_trunc;
  float_of_string := parse_float;
  int_of_string := parse_int
|}.

(** *** A reference for the accuracy of [pow] *)

(** A mantissa and its exponent with the trailing zero bits of the
    mantissa moved into the exponent: m * 2^e is unchanged. *)
Fixpoint odd_part (m : positive) (e : Z) : positive * Z :=
  match m with
  | xO p => odd_part p (e + 1)
  | _ => (m, e)
  end.

(** The exact power x^n of a finite float, for n >= 0, rounded once to the
    nearest float (to an infinity when it overflows, to a zero when it
    underflows). *)
Definition rounded_pow (x : float) (n : Z) : float :=
  match Prim2SF x with
  | S754_finite s m e =>
      let '(m', e') := odd_part m e in
      SF2Prim (binary_normalize prec emax
                 ((if s then Zneg m' else Zpos m') ^ n) (e' * n) false)
  | S754_zero _ => if n =? 0 then PrimFloat.one else PrimFloat.zero
  | _ => x
  end.

(** [r] is [c] or one of its two neighbours. *)
Definition within_one_ulp (r c : float) : Prop :=
  r = PrimFloat.next_down c \/ r = c \/ r = PrimFloat.next_up c.

(** The library's [pow] is within one unit in the last place of the exact
    power at [x] and [n]. *)
Definition accurate_pow {R : runtime} (x : float) (n : Z) : Prop :=
  within_one_ulp (libm_pow x (of_Z n)) (rounded_pow x n).

(** [x] lies within [tol] of [target], both given as decimals; the two
    bounds are computed in floats. *)
Definition close (x : option float) (target tol : Q) : bool :=
  match x with
  | Some x =>
      PrimFloat.leb (PrimFloat.sub (b64_lit target) (b64_lit tol)) x
      && PrimFloat.leb x (PrimFloat.add (b64_lit target) (b64_lit tol))
  | None => false
  end.

End B64.

(** ** Vocabulary of the statements *)

Import Py Bond.

Section Vocabulary.
Context {num : Type} `{PyFloat num}.

(** The bond holds, under key [k], a value that [float] turns into [x]. *)
Definition field_float (bond : value num) (k : string) (x : num) : Prop :=
  exists v, subscript bond k = Ok v /\ py_float v = Ok x.

(** The bond holds, under key [k], a value that [int] turns into [n]. *)
Definition field_int (bond : value num) (k : string) (n : Z) : Prop :=
  exists v, subscript bond k = Ok v /\ py_int v = Ok n.

(** The bond holds, under key [k], the value [v], which can be looked up in
    a table. *)
Definition field_key (bond : value num) (k : string) (v : value num) : Prop :=
  subscript bond k = Ok v /\ hashable v = true.

(** What the function reads from a bond that has every required field:
    the three floats, the maturity, the type, and a rating and a sector that
    can be looked up. *)
Definition reads_as (bond : value num) (face_value coupon_rate ytm_pct : num)
    (maturity : Z) (bond_type rating sector : value num) : Prop :=
  field_float bond "faceValue" face_value /\
  field_float bond "couponRate" coupon_rate /\
  field_float bond "yieldToMaturity" ytm_pct /\
  field_int bond "maturityYears" maturity /\
  subscript bond "type" = Ok bond_type /\
  field_key bond "rating" rating /\
  field_key bond "sector" sector.

(** [v] is one of the keys of [table]. *)
Definition is_key (table : list (string * Q)) (v : value num) : bool :=
  match v with
  | JStr s => existsb (fun kv => String.eqb (fst kv) s) table
  | _ => false
  end.

(** The keys every bond must carry, and those read as numbers. *)
Definition required_keys : list string :=
  [ "faceValue"; "couponRate"; "yieldToMaturity"; "maturityYears";
    "type"; "rating"; "sector" ].

Definition float_keys : list string :=
  [ "faceValue"; "couponRate"; "yieldToMaturity" ].

(** A required field is missing from the bond. *)
Definition missing_field (bond : value num) : Prop :=
  exists k, In k required_keys /\ raises (subscript bond k).

(** A field that must be a number is not one. *)
Definition non_numeric_field (bond : value num) : Prop :=
  (exists k v, In k float_keys /\ subscript bond k = Ok v
               /\ raises (py_float v))
  \/ (exists v, subscript bond "maturityYears" = Ok v /\ raises (py_int v)).

(** The float stored under [k] in a dictionary of the output. *)
Definition get_float (o : dict num) (k : string) : option num :=
  match dict_get o k with
  | Some (JFloat x) => Some x
  | _ => None
  end.

(** The [discounted] fields of a list of cashflow entries, in order. *)
Fixpoint discounted_fields (entries : list (value num))
  : option (list num) :=
  match entries with
  | [] => Some []
  | JObj e :: rest =>
      match get_float e "discounted", discounted_fields rest with
      | Some d, Some ds => Some (d :: ds)
      | _, _ => None
      end
  | _ :: _ => None
  end.

(** The float stored under [k] in the [i]-th cashflow entry of a result,
    counting from 0. *)
Definition cashflow_float (o : dict num) (i : nat) (k : string)
  : option num :=
  match dict_get o "cashflows" with
  | Some (JList entries) =>
      match nth_error entries i with
      | Some (JObj e) => get_float e k
      | _ => None
      end
  | _ => None
  end.

(** The [year] fields of the cashflow entries of a result, in order. *)
Definition cashflow_years (o : dict num) : list (option (value num)) :=
  match dict_get o "cashflows" with
  | Some (JList entries) =>
      map (fun v => match v with JObj e => dict_get e "year" | _ => None end)
          entries
  | _ => []
  end.

(** The sum of the [discounted] fields of the [cashflows] of a result. *)
Definition sum_discounted (o : dict num) : option num :=
  match dict_get o "cashflows" with
  | Some (JList entries) =>
      match discounted_fields entries with
      | Some ds => Some (fold_left add ds (lit 0))
      | None => None
      end
  | _ => None
  end.

(** The invariant of the loop: the running price is the sum of the
    discounted values recorded so far. *)
Definition price_is_sum (st : loop_state num) : Prop :=
  market_price st = fold_left add (map discounted (cashflows st)) (lit 0).

(** The text [main] parses: what it has read, or the text of the empty
    object when it has read nothing. *)
Definition parsed_text (w : world) : string :=
  if String.eqb (stdin w) "" then "{}" else stdin w.

(** What the loop records for one year: the flat coupon, the face value as
    principal in the year of maturity and nothing before, their sum, and
    that sum divided by (1 + ytm) to the power of the year. *)
Definition scheduled (face_value annual_coupon ytm : num) (maturity : Z)
    (cf : cashflow num) : Prop :=
  coupon cf = annual_coupon /\
  principal cf = (if year cf =? maturity then face_value else lit 0) /\
  total cf = add annual_coupon (principal cf) /\
  exists p, pow (add (lit 1) ytm) (year cf) = Ok p /\
            div (total cf) p = Ok (discounted cf).

(** The computed keys that hold a float. *)
Definition float_computed_keys : list string :=
  [ "marketPrice"; "macaulayDuration"; "duration"; "convexity"; "pv01";
    "dv01"; "cr01"; "pd"; "lgd"; "expectedLoss" ].

(** The keys of a dictionary, in order. *)
Definition keys (d : dict num) : list string := map fst d.

Definition has_key (d : dict num) (k : string) : bool :=
  existsb (String.eqb k) (keys d).

(** Successive assignments [d[k] = v]. *)
Definition assign_all (d : dict num) (kvs : list (string * value num))
  : dict num :=
  fold_left (fun d kv => dict_set d (fst kv) (snd kv)) kvs d.

End Vocabulary.

(** ** Sample inputs *)

Module Samples.
Import Exact.

(** The bond of the end-to-end example. *)
Definition example_bond : value Qc :=
  JObj [ ("faceValue", JInt 1000); ("couponRate", JInt 5);
         ("yieldToMaturity", JInt 6); ("maturityYears", JInt 2);
         ("type", JStr "Corporate"); ("rating", JStr "BBB");
         ("sector", JStr "Technology") ].

(** A bond given by its maturity, type, rating and sector, with an extra
    field. *)
Definition bond_with (maturity ty rating sector : value Qc) : value Qc :=
  JObj [ ("isin", JStr "XS0000000001");
         ("faceValue", JInt 1000); ("couponRate", JFloat (Q2Qc 0));
         ("yieldToMaturity", JInt 6); ("maturityYears", maturity);
         ("type", ty); ("rating", rating); ("sector", sector) ].

Definition zero_maturity_bond : value Qc :=
  bond_with (JInt 0) (JStr "Corporate") (JStr "BBB") (JStr "Technology").

Definition negative_maturity_bond : value Qc :=
  bond_with (JInt (-3)) (JStr "Corporate") (JStr "BBB") (JStr "Technology").

Definition fractional_maturity_bond : value Qc :=
  bond_with (JFloat (Q2Qc 2.5)) (JStr "Corporate") (JStr "BBB")
            (JStr "Technology").

Definition null_maturity_bond : value Qc :=
  bond_with JNull (JStr "Corporate") (JStr "BBB") (JStr "Technology").

Definition unrated_bond : value Qc :=
  bond_with (JInt 2) (JStr "corporate") (JStr "NR") (JStr "Shipping").

(** A bond without [couponRate]. *)
Definition incomplete_bond : value Qc :=
  JObj [ ("faceValue", JInt 1000); ("yieldToMaturity", JInt 6);
         ("maturityYears", JInt 2); ("type", JStr "Corporate");
         ("rating", JStr "BBB"); ("sector", JStr "Technology") ].

(** The dictionary [calculate_metrics] returns, or the empty one. *)
Definition result_of (bond : value Qc) : dict Qc :=
  match calculate_metrics bond with
  | Ok (JObj o) => o
  | _ => []
  end.

(** A parser that knows the two texts used below, and a printer that only
    tells whether the list of bonds is empty. *)
Definition sample_loads (s : string) : result (value Qc) :=
  if String.eqb s "{}" then Ok (JObj [])
  else if String.eqb s "batch"
  then Ok (JObj [("bonds", JList [example_bond; incomplete_bond])])
  else Raise ValueError.

Definition sample_dumps (v : value Qc) : string :=
  match v with
  | JObj [(_, JList [])] => "no bonds"
  | _ => "some bonds"
  end.

(** Further bonds: one that already carries two of the computed keys, one
    sold short, one of one year, one whose rating is a list. *)
Definition bond_of (face coupon yield_pct maturity : Z) : value Qc :=
  JObj [ ("faceValue", JInt face); ("couponRate", JInt coupon);
         ("yieldToMaturity", JInt yield_pct); ("maturityYears", JInt maturity);
         ("type", JStr "Corporate"); ("rating", JStr "BBB");
         ("sector", JStr "Technology") ].

Definition stale_bond : value Qc :=
  JObj [ ("marketPrice", JStr "n/a"); ("faceValue", JInt 1000);
         ("couponRate", JInt 5); ("yieldToMaturity", JInt 6);
         ("cashflows", JNull); ("maturityYears", JInt 2);
         ("type", JStr "Corporate"); ("rating", JStr "BBB");
         ("sector", JStr "Technology") ].

Definition short_bond : value Qc := bond_of (-1000) 5 6 2.

Definition one_year_bond : value Qc := bond_of 1000 5 6 1.

Definition list_rated_bond : value Qc :=
  bond_with (JInt 2) (JStr "Corporate") (JList [JStr "BBB"])
            (JStr "Technology").

(** A parser that knows a few payloads by name. *)
Definition batch_loads (s : string) : result (value Qc) :=
  if String.eqb s "two bonds"
  then Ok (JObj [("bonds", JList [example_bond; one_year_bond])])
  else if String.eqb s "three bonds, second incomplete"
  then Ok (JObj [("bonds", JList [example_bond; incomplete_bond; JNull])])
  else if String.eqb s "object without bonds"
  then Ok (JObj [("portfolio", JStr "A")])
  else if String.eqb s "a list"
  then Ok (JList [example_bond])
  else if String.eqb s "bonds as text"
  then Ok (JObj [("bonds", JStr "AB")])
  else Raise ValueError.

End Samples.

(** ** Sample inputs in binary64 *)

Module Samples64.
Import B64.

(** A run time whose [pow] is correctly rounded on integer exponents.  The
    sample bonds hold their numbers as JSON numbers, so the parsers are
    never called. *)
Definition rounded_libm (x y : float) : float :=
  match b64_trunc y with
  | Ok n => rounded_pow x n
  | Raise _ => PrimFloat.nan
  end.

Definition rounded_runtime : runtime := {|
  libm_pow := rounded_libm;
  parse_float := fun _ => Raise ValueError;
  parse_int := fun _ => Raise ValueError
|}.

(** A bond given by its four numbers. *)
Definition bond64 (face coupon yield_pct maturity : Z) : value float :=
  JObj [ ("faceValue", JInt face); ("couponRate", JInt coupon);
         ("yieldToMaturity", JInt yield_pct); ("maturityYears", JInt maturity);
         ("type", JStr "Corporate"); ("rating", JStr "BBB");
         ("sector", JStr "Technology") ].

(** The bond of the end-to-end example. *)
Definition example64 : value float := bond64 1000 5 6 2.

(** The dictionary [calculate_metrics] returns, or the empty one. *)
Definition result64 {R : runtime} (bond : value float) : dict float :=
  match calculate_metrics bond with
  | Ok (JObj o) => o
  | _ => []
  end.

(** The discount factor of the example, 1 + 6.0 / 100.0. *)
Definition example_factor : float :=
  PrimFloat.add (b64_lit 1) (PrimFloat.div (of_Z 6) (b64_lit 100)).

End Samples64.

(** ** The exception monad and dictionaries *)

Section Helpers.
Context {num : Type} `{PyFloat num}.

(** *** The exception monad *)

Lemma bind_Ok {A B : Type} (m : result A) (k : A -> result B) (b : B) :
  bind m k = Ok b -> exists a, m = Ok a /\ k a = Ok b.
Proof.
  destruct m as [a|e]; simpl; intros E; [eauto | discriminate].
Qed.

Lemma bind_raises {A B : Type} (m : result A) (k : A -> result B) :
  raises m -> raises (bind m k).
Proof.
  intros [e ->]. exists e. reflexivity.
Qed.

Lemma bind_raises_next {A B : Type} (m : result A) (k : A -> result B) :
  (forall a, m = Ok a -> raises (k a)) -> raises (bind m k).
Proof.
  destruct m as [a|e]; simpl; intros K; [apply K; reflexivity | now exists e].
Qed.

Lemma raises_not_Ok {A : Type} (m : result A) (a : A) :
  raises m -> m <> Ok a.
Proof.
  intros [e ->]. discriminate.
Qed.

Lemma returns_or_raises {A : Type} (m : result A) : returns m \/ raises m.
Proof.
  destruct m as [a|e]; [left; now exists a | right; now exists e].
Qed.

Lemma mapM_raises {A B : Type} (f : A -> result B) (xs : list A) (x : A) :
  In x xs -> raises (f x) -> raises (mapM f xs).
Proof.
  induction xs as [|y ys IH]; simpl; [contradiction|].
  intros [-> | Hin] Hx.
  - now apply bind_raises.
  - apply bind_raises_next. intros b _.
    apply bind_raises. now apply IH.
Qed.

Lemma foldM_app {A S : Type} (body : S -> A -> result S) (xs ys : list A)
    (s : S) :
  foldM body (xs ++ ys)%list s = (s' <- foldM body xs s ;; foldM body ys s').
Proof.
  revert s. induction xs as [|x xs IH]; intros s; simpl; [reflexivity|].
  destruct (body s x) as [s1|e]; simpl; [apply IH | reflexivity].
Qed.

(** A property kept by the body of a loop holds when the loop ends. *)
Lemma foldM_invariant {A S : Type} (P : S -> Prop)
    (body : S -> A -> result S) (xs : list A) :
  (forall s x s', P s -> body s x = Ok s' -> P s') ->
  forall s s', P s -> foldM body xs s = Ok s' -> P s'.
Proof.
  intros Hbody. induction xs as [|x xs IH]; simpl; intros s s' Hs E.
  - now injection E as <-.
  - apply bind_Ok in E as (s1 & E1 & E2). eauto.
Qed.

(** *** Dictionaries *)

Lemma dict_get_set_same (d : dict num) (k : string) (v : value num) :
  dict_get (dict_set d k v) k = Some v.
Proof.
  induction d as [|[k' v'] d IH]; simpl.
  - now rewrite String.eqb_refl.
  - destruct (String.eqb k' k) eqn:E; simpl; now rewrite E.
Qed.

Lemma dict_get_set_other (d : dict num) (k k' : string) (v : value num) :
  String.eqb k k' = false ->
  dict_get (dict_set d k v) k' = dict_get d k'.
Proof.
  intros Hk. induction d as [|[k0 v0] d IH]; simpl.
  - now rewrite Hk.
  - destruct (String.eqb k0 k) eqn:E; simpl.
    + apply String.eqb_eq in E. subst k0. now rewrite Hk.
    + now rewrite IH.
Qed.

Lemma subscript_Ok (bond v : value num) (k : string) :
  subscript bond k = Ok v ->
  exists o, bond = JObj o /\ dict_get o k = Some v.
Proof.
  destruct bond; simpl; try discriminate.
  destruct (dict_get o k) eqn:E; [|discriminate].
  intros [= ->]. eauto.
Qed.

End Helpers.

(** ** Tactics *)

(** Splits [E : calculate_metrics bond = Ok out] into the successful steps
    of the function, in order. *)
Ltac calc_steps E :=
  unfold calculate_metrics in E;
  repeat first
    [ let a := fresh "a" in
      let Ea := fresh "Step" in
      apply bind_Ok in E as (a & Ea & E)
    | match type of E with
      | match ?p with pair _ _ => _ end = _ => destruct p as [[? ?] ?]
      end ];
  injection E as E.

(** Evaluates a lookup in a dictionary built by successive assignments. *)
Ltac dict_lookup :=
  repeat first
    [ rewrite dict_get_set_same
    | rewrite dict_get_set_other by reflexivity ].

(** Moves past a statement that has returned. *)
Ltac next_step := apply bind_raises_next; intros ? ?.

(** A statement of the function that reads a field: everything before it
    has returned or the function has raised already. *)
Ltac reach_field S :=
  unfold calculate_metrics;
  repeat first
    [ rewrite S; simpl bind
    | apply bind_raises; assumption
    | next_step ].

(** ** Properties that hold for every float arithmetic *)

Section Generic.
Context {num : Type} `{PyFloat num}.

(** *** Reading a successful run of [calculate_metrics] backwards *)

Lemma dict_copy_Ok (bond : value num) (o : dict num) :
  dict_copy bond = Ok o -> bond = JObj o.
Proof.
  destruct bond; simpl; try discriminate. now intros [= ->].
Qed.

Lemma not_computed_key (k : string) :
  ~ In k computed_keys ->
  Forall (fun c => String.eqb c k = false) computed_keys.
Proof.
  intros Hk. apply Forall_forall. intros c Hc.
  apply String.eqb_neq. intros ->. contradiction.
Qed.

(** C9: every field of the bond whose key is not one of the eleven computed
    keys is found in the result under the same key with the same value
    (and a key absent from the bond, other than the eleven, is absent from
    the result). *)
Theorem input_fields_pass_through (bond out : value num) (k : string) :
  calculate_metrics bond = Ok out ->
  ~ In k computed_keys ->
  subscript out k = subscript bond k.
Proof.
  intros E Hk. calc_steps E.
  match goal with S : dict_copy _ = Ok _ |- _ => apply dict_copy_Ok in S end.
  subst bond out. simpl.
  apply not_computed_key in Hk. unfold computed_keys in Hk.
  repeat (apply Forall_cons_iff in Hk as [? Hk]).
  repeat (rewrite dict_get_set_other by assumption).
  reflexivity.
Qed.

(** *** Credit spread sensitivity *)

Lemma eq_str_true (v : value num) (s : string) :
  eq_str v s = true <-> v = JStr s.
Proof.
  destruct v; simpl; split; try discriminate.
  - intros E. apply String.eqb_eq in E. now subst.
  - intros [= ->]. apply String.eqb_refl.
Qed.

(** C5: [cr01] is [pv01] when the type of the bond is exactly the string
    "Corporate", and the float 0 for every other type. *)
Theorem cr01_corporate_only (bond ty : value num) (o : dict num) :
  calculate_metrics bond = Ok (JObj o) ->
  subscript bond "type" = Ok ty ->
  exists pv01 cr01,
    get_float o "pv01" = Some pv01 /\
    get_float o "cr01" = Some cr01 /\
    (ty = JStr "Corporate" -> cr01 = pv01) /\
    (ty <> JStr "Corporate" -> cr01 = lit 0).
Proof.
  intros E Hty. calc_steps E. subst o.
  match goal with S : subscript bond "type" = Ok ?t |- _ =>
    rewrite Hty in S; injection S as <- end.
  unfold get_float. dict_lookup.
  do 2 eexists. repeat split.
  - intros ->. reflexivity.
  - intros Hne. destruct (eq_str ty "Corporate") eqn:Et; [|reflexivity].
    apply eq_str_true in Et. contradiction.
Qed.

(** *** Market price and cashflows *)

Lemma discounted_fields_entries (cfs : list (cashflow num)) :
  discounted_fields (map cashflow_value cfs) = Some (map discounted cfs).
Proof.
  induction cfs as [|cf cfs IH]; simpl; [reflexivity|].
  now rewrite IH.
Qed.

Lemma loop_body_price_is_sum (fv ac ytm : num) (m : Z)
    (st : loop_state num) (y : Z) (st' : loop_state num) :
  price_is_sum st -> loop_body fv ac ytm m st y = Ok st' -> price_is_sum st'.
Proof.
  unfold price_is_sum, loop_body. intros Hst E.
  apply bind_Ok in E as (p & _ & E).
  apply bind_Ok in E as (d & _ & E).
  injection E as <-. simpl.
  rewrite map_app, fold_left_app. simpl. now rewrite <- Hst.
Qed.

(** C4: the [discounted] fields of the [cashflows] of a result, added up in
    order from 0, give its [marketPrice]. *)
Theorem discounted_sum_is_market_price (bond : value num) (o : dict num) :
  calculate_metrics bond = Ok (JObj o) ->
  exists mp,
    get_float o "marketPrice" = Some mp /\ sum_discounted o = Some mp.
Proof.
  intros E. calc_steps E. subst o.
  match goal with S : foldM _ _ _ = Ok ?st |- _ =>
    exists (market_price st);
    apply (foldM_invariant price_is_sum) in S;
      [ | intros *; apply loop_body_price_is_sum | reflexivity ];
    rename S into Hsum
  end.
  unfold get_float, sum_discounted. dict_lookup.
  rewrite discounted_fields_entries. split; [reflexivity|].
  now rewrite Hsum.
Qed.

(** *** Rating and sector tables *)

Lemma table_get_unknown (table : list (string * Q)) (key : value num)
    (default : Q) :
  hashable key = true -> is_key table key = false ->
  table_get table key default = Ok (lit default).
Proof.
  destruct key; simpl; try reflexivity; try discriminate.
  intros _ Hk.
  destruct (find (fun kv => String.eqb (fst kv) s) table) as [kv|] eqn:F;
    [|reflexivity].
  apply find_some in F as [Hin Heq].
  assert (existsb (fun kv => String.eqb (fst kv) s) table = true)
    by (apply existsb_exists; eauto).
  congruence.
Qed.

Lemma table_get_hashable (table : list (string * Q)) (key : value num)
    (default : Q) (x : num) :
  table_get table key default = Ok x -> hashable key = true.
Proof.
  destruct key; simpl; try reflexivity; discriminate.
Qed.

(** C6: a rating that is not a key of the rating table gives a [pd] of
    0.001 x 100, a sector that is not a key of the sector table gives an
    [lgd] of 0.40 x 100, and neither lookup raises (the rating and the
    sector being values that can be hashed, as strings are). *)
Theorem unknown_rating_sector_defaults (bond rating sector : value num) :
  subscript bond "rating" = Ok rating ->
  subscript bond "sector" = Ok sector ->
  (is_key RATING_PD rating = false ->
     (hashable rating = true ->
        table_get RATING_PD rating 0.001 = Ok (lit 0.001)) /\
     (forall o, calculate_metrics bond = Ok (JObj o) ->
        get_float o "pd" = Some (mul (lit 0.001) (lit 100)))) /\
  (is_key SECTOR_LGD sector = false ->
     (hashable sector = true ->
        table_get SECTOR_LGD sector 0.40 = Ok (lit 0.40)) /\
     (forall o, calculate_metrics bond = Ok (JObj o) ->
        get_float o "lgd" = Some (mul (lit 0.40) (lit 100)))).
Proof.
  intros Hr Hs. split; intros Hk; (split; [intros Hh; now apply table_get_unknown|]);
    intros o E; calc_steps E; subst o.
  - match goal with S : subscript bond "rating" = Ok ?t |- _ =>
      rewrite Hr in S; injection S as <- end.
    match goal with S : table_get RATING_PD _ _ = Ok _ |- _ =>
      rewrite table_get_unknown in S
        by (try assumption; eapply table_get_hashable; exact S);
      injection S as <- end.
    unfold get_float. now dict_lookup.
  - match goal with S : subscript bond "sector" = Ok ?t |- _ =>
      rewrite Hs in S; injection S as <- end.
    match goal with S : table_get SECTOR_LGD _ _ = Ok _ |- _ =>
      rewrite table_get_unknown in S
        by (try assumption; eapply table_get_hashable; exact S);
      injection S as <- end.
    unfold get_float. now dict_lookup.
Qed.

(** *** Failures *)

Lemma missing_field_raises (bond : value num) :
  missing_field bond -> raises (calculate_metrics bond).
Proof.
  intros (k & Hk & Hr). unfold required_keys in Hk. simpl in Hk.
  unfold calculate_metrics.
  repeat (destruct Hk as [<- | Hk];
          [ repeat first [ apply bind_raises; exact Hr | next_step ] | ]).
  contradiction.
Qed.

Lemma maturity_raises (bond v : value num) :
  subscript bond "maturityYears" = Ok v ->
  raises (py_int v) ->
  raises (calculate_metrics bond).
Proof.
  intros S Hr. reach_field S.
Qed.

Lemma non_numeric_field_raises (bond : value num) :
  non_numeric_field bond -> raises (calculate_metrics bond).
Proof.
  intros [(k & v & Hk & S & Hr) | (v & S & Hr)].
  - unfold float_keys in Hk. simpl in Hk.
    repeat (destruct Hk as [<- | Hk]; [ reach_field S | ]).
    contradiction.
  - eapply maturity_raises; eauto.
Qed.

(** C1, as amended: a [maturityYears] that [int] cannot convert (null, a
    list, an object, a string that is not an integer literal, a float
    without an integer part) makes [calculate_metrics] raise. *)
Theorem unconvertible_maturity_raises (bond v : value num) :
  subscript bond "maturityYears" = Ok v ->
  raises (py_int v) ->
  raises (calculate_metrics bond)
  /\ (v = JNull \/ (exists l, v = JList l) \/ (exists o, v = JObj o)
        \/ (exists s, v = JStr s /\ raises (int_of_string s))
        \/ (exists x, v = JFloat x /\ raises (trunc x))).
Proof.
  intros S Hr. split; [now apply maturity_raises with v|].
  destruct v; simpl in Hr; eauto 8.
  - destruct Hr as [e He]. discriminate.
  - destruct Hr as [e He]. discriminate.
Qed.

(** *** The program *)

Variable loads : string -> result (value num).
Variable dumps : value num -> string.

(** When [main] raises, nothing has been written. *)
Lemma main_raises (w : world) :
  raises (main_result loads (stdin w)) ->
  exists e, main loads dumps w
            = (Raise e, {| stdin := ""; stdout := stdout w |}).
Proof.
  intros [e He]. exists e. unfold main. now rewrite He.
Qed.

(** C8: a bond of the batch with a missing or non-numeric required field
    makes [main] raise, and nothing is written: the standard output is as
    it was before the call. *)
Theorem malformed_bond_aborts_batch (w : world) (payload bonds : value num)
    (items : list (value num)) (b : value num) :
  loads (if String.eqb (stdin w) "" then "{}" else stdin w) = Ok payload ->
  payload_bonds payload = Ok bonds ->
  iterate bonds = Ok items ->
  In b items ->
  missing_field b \/ non_numeric_field b ->
  exists e, main loads dumps w
            = (Raise e, {| stdin := ""; stdout := stdout w |}).
Proof.
  intros Hl Hp Hi Hin Hbad. apply main_raises.
  unfold main_result. rewrite Hl. simpl. rewrite Hp. simpl.
  rewrite Hi. simpl.
  apply bind_raises. apply mapM_raises with b; [assumption|].
  destruct Hbad;
    [now apply missing_field_raises | now apply non_numeric_field_raises].
Qed.

(** C7: with nothing to read, or with the text of the empty object, [main]
    returns and writes the text of [{"bonds": []}]. *)
Theorem empty_payload_gives_empty_bonds (w : world) :
  loads "{}" = Ok (JObj []) ->
  stdin w = "" \/ stdin w = "{}" ->
  main loads dumps w
  = (Ok tt, {| stdin := "";
               stdout := stdout w ++ dumps (JObj [("bonds", JList [])]) |}).
Proof.
  intros Hl Hin. unfold main, main_result.
  destruct Hin as [-> | ->]; simpl; rewrite Hl; reflexivity.
Qed.

End Generic.

(** ** Worked examples in exact arithmetic *)

(** Decides a closed statement about computed rationals. *)
Ltac by_computation :=
  vm_compute;
  repeat first
    [ reflexivity
    | split
    | apply f_equal; apply Qc_is_canon; reflexivity ].

Section Examples.
Import Exact Samples.
Local Open Scope Qc_scope.

(** In exact arithmetic the two defaults, as percentages, are 0.1 and 40. *)
Lemma default_percentages :
  mul (lit 0.001) (lit 100) = Q2Qc 0.1 /\
  mul (lit 0.40) (lit 100) = Q2Qc 40.
Proof.
  split; apply Qc_is_canon; reflexivity.
Qed.

(** The comparison with "Corporate" is case sensitive: a bond of type
    "corporate" has a [cr01] of 0 although its [pv01] is not 0. *)
Lemma lowercase_corporate_has_no_cr01 :
  subscript unrated_bond "type" = Ok (JStr "corporate") /\
  get_float (result_of unrated_bond) "cr01" = Some (Q2Qc 0) /\
  near (get_float (result_of unrated_bond) "pv01") 0 0 = false.
Proof.
  by_computation.
Qed.

(** C1, the claim itself: bonds whose maturity is 0, -3 and 2.5 are not
    rejected.  The first two get no cashflow, the third one gets the two
    cashflows of a maturity of 2. *)
Lemma nonpositive_and_fractional_maturities_accepted :
  subscript zero_maturity_bond "maturityYears" = Ok (JInt 0) /\
  calculate_metrics zero_maturity_bond
    = Ok (JObj (result_of zero_maturity_bond)) /\
  cashflow_years (result_of zero_maturity_bond) = [] /\
  subscript negative_maturity_bond "maturityYears" = Ok (JInt (-3)) /\
  calculate_metrics negative_maturity_bond
    = Ok (JObj (result_of negative_maturity_bond)) /\
  cashflow_years (result_of negative_maturity_bond) = [] /\
  subscript fractional_maturity_bond "maturityYears"
    = Ok (JFloat (Q2Qc 2.5)) /\
  calculate_metrics fractional_maturity_bond
    = Ok (JObj (result_of fractional_maturity_bond)) /\
  cashflow_years (result_of fractional_maturity_bond)
    = [Some (JInt 1); Some (JInt 2)].
Proof.
  by_computation.
Qed.

End Examples.

(** ** The statements at concrete inputs *)

Section Instances.
Import Exact Samples.
Local Open Scope Qc_scope.

(** An extra field, [isin], comes out as it went in. *)
Lemma input_fields_pass_through_witness :
  subscript (JObj (result_of unrated_bond)) "isin"
  = subscript unrated_bond "isin".
Proof.
  apply (input_fields_pass_through unrated_bond
           (JObj (result_of unrated_bond)) "isin").
  - vm_compute. reflexivity.
  - simpl. intuition discriminate.
Defined.

Lemma cr01_corporate_only_witness :
  exists pv01 cr01,
    get_float (result_of example_bond) "pv01" = Some pv01 /\
    get_float (result_of example_bond) "cr01" = Some cr01 /\
    (JStr "Corporate" = JStr "Corporate" :> value Qc -> cr01 = pv01) /\
    (JStr "Corporate" <> JStr "Corporate" :> value Qc -> cr01 = lit 0).
Proof.
  apply (cr01_corporate_only example_bond (JStr "Corporate")
           (result_of example_bond)).
  - vm_compute. reflexivity.
  - reflexivity.
Defined.

Lemma discounted_sum_is_market_price_witness :
  exists mp,
    get_float (result_of example_bond) "marketPrice" = Some mp /\
    sum_discounted (result_of example_bond) = Some mp.
Proof.
  apply (discounted_sum_is_market_price example_bond).
  vm_compute. reflexivity.
Defined.

(** The rating "NR" and the sector "Shipping" are in neither table. *)
Lemma unknown_rating_sector_defaults_witness :
  (table_get RATING_PD (JStr "NR" : value Qc) 0.001 = Ok (lit 0.001) /\
   get_float (result_of unrated_bond) "pd" = Some (mul (lit 0.001) (lit 100)))
  /\
  (table_get SECTOR_LGD (JStr "Shipping" : value Qc) 0.40 = Ok (lit 0.40) /\
   get_float (result_of unrated_bond) "lgd" = Some (mul (lit 0.40) (lit 100))).
Proof.
  destruct (unknown_rating_sector_defaults unrated_bond
              (JStr "NR") (JStr "Shipping") eq_refl eq_refl) as [Hr Hs].
  destruct (Hr eq_refl) as [Hr1 Hr2]. destruct (Hs eq_refl) as [Hs1 Hs2].
  split; split.
  - apply Hr1. reflexivity.
  - apply Hr2. vm_compute. reflexivity.
  - apply Hs1. reflexivity.
  - apply Hs2. vm_compute. reflexivity.
Defined.

Lemma unconvertible_maturity_raises_witness :
  raises (calculate_metrics null_maturity_bond).
Proof.
  apply (unconvertible_maturity_raises null_maturity_bond JNull).
  - reflexivity.
  - exists TypeError. reflexivity.
Defined.

(** A batch of two bonds, the second one without [couponRate]. *)
Lemma malformed_bond_aborts_batch_witness :
  exists e, main sample_loads sample_dumps {| stdin := "batch"; stdout := "" |}
            = (Raise e, {| stdin := ""; stdout := "" |}).
Proof.
  apply (malformed_bond_aborts_batch sample_loads sample_dumps
           {| stdin := "batch"; stdout := "" |}
           (JObj [("bonds", JList [example_bond; incomplete_bond])])
           (JList [example_bond; incomplete_bond])
           [example_bond; incomplete_bond] incomplete_bond).
  - reflexivity.
  - reflexivity.
  - reflexivity.
  - simpl. tauto.
  - left. exists "couponRate". split.
    + simpl. tauto.
    + exists KeyError. reflexivity.
Defined.

Lemma empty_payload_gives_empty_bonds_witness :
  main sample_loads sample_dumps {| stdin := ""; stdout := "" |}
  = (Ok tt, {| stdin := "";
               stdout := "" ++ sample_dumps (JObj [("bonds", JList [])]) |}).
Proof.
  apply (empty_payload_gives_empty_bonds sample_loads sample_dumps
           {| stdin := ""; stdout := "" |}).
  - reflexivity.
  - left. reflexivity.
Defined.

End Instances.

(** ** The batch: further properties of [main] *)

Section Batch.
Context {num : Type} `{PyFloat num}.
Variable loads : string -> result (value num).
Variable dumps : value num -> string.

Lemma mapM_Forall2 {A B : Type} (f : A -> result B) (xs : list A)
    (ys : list B) :
  Forall2 (fun x y => f x = Ok y) xs ys -> mapM f xs = Ok ys.
Proof.
  induction 1 as [|x y xs ys Hxy _ IH]; cbn [mapM]; [reflexivity|].
  now rewrite Hxy, IH.
Qed.

Lemma mapM_first_failure {A B : Type} (f : A -> result B)
    (good : list A) (bad : A) (rest : list A) (e : exn) :
  Forall (fun x => returns (f x)) good ->
  f bad = Raise e ->
  mapM f (good ++ bad :: rest)%list = Raise e.
Proof.
  intros Hgood Hbad. induction Hgood as [|x good [y Hx] _ IH]; cbn [mapM app].
  - now rewrite Hbad.
  - now rewrite Hx, IH.
Qed.

(** When every bond of the batch computes, [main] returns and writes one
    result per bond, in the order of the input. *)
Theorem results_follow_inputs (w : world) (payload bonds : value num)
    (items results : list (value num)) :
  loads (parsed_text w) = Ok payload ->
  payload_bonds payload = Ok bonds ->
  iterate bonds = Ok items ->
  Forall2 (fun b r => calculate_metrics b = Ok r) items results ->
  main loads dumps w
  = (Ok tt, {| stdin := "";
               stdout := stdout w ++ dumps (JObj [("bonds", JList results)]) |}).
Proof.
  intros Hl Hp Hi Hall. unfold main, main_result.
  fold (parsed_text w). rewrite Hl. cbn [bind]. rewrite Hp. cbn [bind].
  rewrite Hi. cbn [bind]. rewrite (mapM_Forall2 _ _ _ Hall). reflexivity.
Qed.

(** The exception [main] raises is the one of the first bond that fails;
    the bonds after it are not looked at, and nothing is written. *)
Theorem first_failure_decides_exception (w : world)
    (payload bonds : value num) (good : list (value num)) (bad : value num)
    (rest : list (value num)) (e : exn) :
  loads (parsed_text w) = Ok payload ->
  payload_bonds payload = Ok bonds ->
  iterate bonds = Ok (good ++ bad :: rest)%list ->
  Forall (fun b => returns (calculate_metrics b)) good ->
  calculate_metrics bad = Raise e ->
  main loads dumps w = (Raise e, {| stdin := ""; stdout := stdout w |}).
Proof.
  intros Hl Hp Hi Hgood Hbad. unfold main, main_result.
  fold (parsed_text w). rewrite Hl. cbn [bind]. rewrite Hp. cbn [bind].
  rewrite Hi. cbn [bind].
  now rewrite (mapM_first_failure _ _ _ _ _ Hgood Hbad).
Qed.

(** A payload that is an object without the key [bonds], whatever else it
    holds, is an empty batch. *)
Theorem missing_bonds_key_gives_empty_batch (w : world) (o : dict num) :
  loads (parsed_text w) = Ok (JObj o) ->
  dict_get o "bonds" = None ->
  main loads dumps w
  = (Ok tt, {| stdin := "";
               stdout := stdout w ++ dumps (JObj [("bonds", JList [])]) |}).
Proof.
  intros Hl Hb. unfold main, main_result.
  fold (parsed_text w). rewrite Hl. cbn [bind payload_bonds]. now rewrite Hb.
Qed.

(** A payload that parses to anything but an object (a list, a string, a
    number, null) makes [main] raise [AttributeError] and write nothing. *)
Theorem non_object_payload_raises_AttributeError (w : world)
    (payload : value num) :
  loads (parsed_text w) = Ok payload ->
  (forall o, payload <> JObj o) ->
  main loads dumps w
  = (Raise AttributeError, {| stdin := ""; stdout := stdout w |}).
Proof.
  intros Hl Hno. unfold main, main_result.
  fold (parsed_text w). rewrite Hl. cbn [bind].
  destruct payload; try reflexivity. now destruct (Hno o).
Qed.

Lemma non_object_bond_raises (v : value num) :
  (forall o, v <> JObj o) -> calculate_metrics v = Raise TypeError.
Proof.
  intros Hno. destruct v; try reflexivity. now destruct (Hno o).
Qed.

(** When [bonds] is not a list, [main] raises [TypeError] and writes
    nothing, unless a loop over it visits nothing (the empty string and the
    empty object). *)
Theorem bonds_not_a_list_raises_TypeError (w : world)
    (payload bonds : value num) :
  loads (parsed_text w) = Ok payload ->
  payload_bonds payload = Ok bonds ->
  (forall l, bonds <> JList l) ->
  iterate bonds <> Ok [] ->
  main loads dumps w
  = (Raise TypeError, {| stdin := ""; stdout := stdout w |}).
Proof.
  intros Hl Hp Hnl Hne. unfold main, main_result.
  fold (parsed_text w). rewrite Hl. cbn [bind]. rewrite Hp. cbn [bind].
  destruct bonds as [| | | |s|l|o]; try reflexivity.
  - destruct s as [|c s]; [now destruct Hne|]. reflexivity.
  - now destruct (Hnl l).
  - destruct o as [|[k v] o]; [now destruct Hne|]. reflexivity.
Qed.

End Batch.

(** ** Further properties of [calculate_metrics], for every arithmetic *)

(** Identifies the values a successful run has read with those the
    hypotheses name. *)
Ltac same_reads :=
  repeat match goal with
         | S : ?m = Ok ?a, S' : ?m = Ok ?b |- _ =>
             rewrite S in S'; injection S' as <-
         end.

Section Results.
Context {num : Type} `{PyFloat num}.

(** *** The cashflow schedule *)

Lemma loop_body_schedule (fv ac ytm : num) (n : Z) (st : loop_state num)
    (y : Z) (st' : loop_state num) :
  loop_body fv ac ytm n st y = Ok st' ->
  exists cf, cashflows st' = (cashflows st ++ [cf])%list /\
             year cf = y /\ scheduled fv ac ytm n cf.
Proof.
  unfold loop_body. intros E.
  apply bind_Ok in E as (p & Hp & E).
  apply bind_Ok in E as (d & Hd & E).
  injection E as <-. eexists. split; [reflexivity|].
  split; [reflexivity|]. unfold scheduled. cbn.
  repeat split. exists p. now split.
Qed.

Lemma loop_schedule (fv ac ytm : num) (n : Z) (years : list Z) :
  forall st st',
    foldM (loop_body fv ac ytm n) years st = Ok st' ->
    map year (cashflows st') = (map year (cashflows st) ++ years)%list /\
    (Forall (scheduled fv ac ytm n) (cashflows st) ->
     Forall (scheduled fv ac ytm n) (cashflows st')).
Proof.
  induction years as [|y years IH]; intros st st' E; cbn [foldM] in E.
  - injection E as <-. rewrite app_nil_r. now split.
  - apply bind_Ok in E as (st1 & E1 & E2).
    apply loop_body_schedule in E1 as (cf & Hcf & Hy & Hs).
    apply IH in E2 as [Hyears Hall]. rewrite Hcf in Hyears, Hall.
    rewrite map_app in Hyears. cbn [map] in Hyears. rewrite Hy in Hyears.
    rewrite <- app_assoc in Hyears. split; [exact Hyears|].
    intros Hst. apply Hall. apply Forall_app. split; [exact Hst|].
    now constructor.
Qed.

(** The cashflows of a result are one entry per year from 1 to the
    maturity, in ascending order, each with the same coupon
    faceValue x (couponRate / 100), the face value as principal in the last
    year only, and a total discounted at the yield. *)
Theorem cashflow_schedule (bond : value num) (o : dict num)
    (fv cr yp : num) (n : Z) :
  calculate_metrics bond = Ok (JObj o) ->
  field_float bond "faceValue" fv ->
  field_float bond "couponRate" cr ->
  field_float bond "yieldToMaturity" yp ->
  field_int bond "maturityYears" n ->
  exists coupon_frac ytm cfs,
    div cr (lit 100) = Ok coupon_frac /\
    div yp (lit 100) = Ok ytm /\
    dict_get o "cashflows" = Some (JList (map cashflow_value cfs)) /\
    map year cfs = range 1 (n + 1) /\
    Forall (scheduled fv (mul fv coupon_frac) ytm n) cfs.
Proof.
  intros E (v1 & S1 & F1) (v2 & S2 & F2) (v3 & S3 & F3) (v4 & S4 & F4).
  calc_steps E. subst o. same_reads.
  match goal with L : foldM _ _ _ = Ok _ |- _ =>
    apply loop_schedule in L as [Hyears Hall]
  end.
  do 3 eexists.
  split; [eassumption|]. split; [eassumption|].
  split; [dict_lookup; reflexivity|].
  split; [exact Hyears|]. apply Hall. constructor.
Qed.

(** *** Relations between the figures of a result *)

Lemma pv01_dv01_from_duration (bond : value num) (o : dict num) :
  calculate_metrics bond = Ok (JObj o) ->
  exists dur mp,
    get_float o "duration" = Some dur /\
    get_float o "marketPrice" = Some mp /\
    get_float o "pv01" = Some (mul (mul dur mp) (lit 0.0001)) /\
    get_float o "dv01" = Some (mul (mul dur mp) (lit 0.0001)).
Proof.
  intros E. calc_steps E. subst o. unfold get_float. dict_lookup.
  do 2 eexists. repeat split.
Qed.

Lemma expected_loss_from_pd_lgd (bond : value num) (o : dict num) :
  calculate_metrics bond = Ok (JObj o) ->
  exists pd lgd mp pd_frac lgd_frac,
    get_float o "pd" = Some pd /\
    get_float o "lgd" = Some lgd /\
    get_float o "marketPrice" = Some mp /\
    div pd (lit 100) = Ok pd_frac /\
    div lgd (lit 100) = Ok lgd_frac /\
    get_float o "expectedLoss" = Some (mul (mul pd_frac lgd_frac) mp).
Proof.
  intros E. calc_steps E. subst o. unfold get_float. dict_lookup.
  do 5 eexists.
  split; [reflexivity|]. split; [reflexivity|]. split; [reflexivity|].
  split; [eassumption|]. split; [eassumption|]. reflexivity.
Qed.

(** The risk figures of a result follow from its other fields: [pv01] and
    [dv01] are both duration x marketPrice x 0.0001, and [expectedLoss] is
    (pd / 100) x (lgd / 100) x marketPrice. *)
Theorem risk_figures_from_result_fields (bond : value num) (o : dict num) :
  calculate_metrics bond = Ok (JObj o) ->
  exists dur mp pd lgd pd_frac lgd_frac,
    get_float o "duration" = Some dur /\
    get_float o "marketPrice" = Some mp /\
    get_float o "pd" = Some pd /\
    get_float o "lgd" = Some lgd /\
    get_float o "pv01" = Some (mul (mul dur mp) (lit 0.0001)) /\
    get_float o "dv01" = Some (mul (mul dur mp) (lit 0.0001)) /\
    div pd (lit 100) = Ok pd_frac /\
    div lgd (lit 100) = Ok lgd_frac /\
    get_float o "expectedLoss" = Some (mul (mul pd_frac lgd_frac) mp).
Proof.
  intros E.
  destruct (pv01_dv01_from_duration bond o E)
    as (dur & mp & Hdur & Hmp & Hpv & Hdv).
  destruct (expected_loss_from_pd_lgd bond o E)
    as (pd & lgd & mp' & a & b & Hpd & Hlgd & Hmp' & Ha & Hb & Hel).
  rewrite Hmp in Hmp'. injection Hmp' as <-.
  exists dur, mp, pd, lgd, a, b. repeat split; assumption.
Qed.

(** A market price that is not above 0 (the test [market_price <= 0]
    holds) gives a Macaulay duration, a duration and a convexity of 0: no
    division by the price takes place. *)
Theorem degenerate_price_zeroes_durations (bond : value num) (o : dict num)
    (mp : num) :
  calculate_metrics bond = Ok (JObj o) ->
  get_float o "marketPrice" = Some mp ->
  leb mp (lit 0) = true ->
  get_float o "macaulayDuration" = Some (lit 0) /\
  get_float o "duration" = Some (lit 0) /\
  get_float o "convexity" = Some (lit 0).
Proof.
  intros E Hmp Hle. calc_steps E. subst o.
  unfold get_float in *. revert Hmp. dict_lookup. intros [= <-].
  match goal with D : durations _ _ = Ok _ |- _ =>
    unfold durations in D; rewrite Hle in D; injection D as <- <- <- end.
  repeat split.
Qed.

(** Every result holds the eleven computed keys, ten of them floats and
    [cashflows] a list, whatever the bond carried under those keys. *)
Theorem computed_fields_always_present (bond : value num) (o : dict num) :
  calculate_metrics bond = Ok (JObj o) ->
  Forall (fun k => exists x, get_float o k = Some x) float_computed_keys /\
  exists entries, dict_get o "cashflows" = Some (JList entries).
Proof.
  intros E. calc_steps E. subst o. split.
  - unfold float_computed_keys, get_float.
    repeat (constructor; [dict_lookup; eexists; reflexivity|]).
    constructor.
  - dict_lookup. eexists. reflexivity.
Qed.

(** *** The order of the keys *)

Lemma keys_dict_set (d : dict num) (k : string) (v : value num) :
  keys (dict_set d k v)
  = if has_key d k then keys d else (keys d ++ [k])%list.
Proof.
  unfold has_key, keys. induction d as [|[k' v'] d IH]; cbn; [reflexivity|].
  rewrite (String.eqb_sym k k').
  destruct (String.eqb k' k); cbn; [reflexivity|].
  rewrite IH. now destruct (existsb (String.eqb k) (map fst d)).
Qed.

Lemma has_key_app_other (d : dict num) (k k' : string) (v : value num) :
  String.eqb k' k = false ->
  has_key (dict_set d k v) k' = has_key d k'.
Proof.
  intros Hk. unfold has_key. rewrite keys_dict_set.
  destruct (has_key d k); [reflexivity|].
  rewrite existsb_app. cbn. rewrite Hk. now rewrite !orb_false_r.
Qed.

Lemma keys_assign_all (kvs : list (string * value num)) :
  NoDup (map fst kvs) ->
  forall d,
    keys (assign_all d kvs)
    = (keys d ++ filter (fun k => negb (has_key d k)) (map fst kvs))%list.
Proof.
  unfold assign_all.
  induction kvs as [|[k v] kvs IH]; intros Hnd d; cbn [fold_left map filter].
  - now rewrite app_nil_r.
  - inversion Hnd as [|? ? Hk Hnd']; subst. rewrite (IH Hnd').
    cbn [fst snd]. rewrite keys_dict_set.
    assert (Hf : filter (fun k0 => negb (has_key (dict_set d k v) k0))
                        (map fst kvs)
                 = filter (fun k0 => negb (has_key d k0)) (map fst kvs)).
    { apply filter_ext_in. intros k0 Hk0. rewrite has_key_app_other;
        [reflexivity|]. apply String.eqb_neq. intros ->. contradiction. }
    rewrite Hf. destruct (has_key d k); cbn [negb]; [reflexivity|].
    now rewrite <- app_assoc.
Qed.

(** The keys of a result are the keys of the bond, in their order, followed
    by those of the eleven computed keys the bond did not carry, in the
    order in which the function assigns them. *)
Theorem result_key_order (bond_fields o : dict num) :
  calculate_metrics (JObj bond_fields) = Ok (JObj o) ->
  keys o
  = (keys bond_fields
     ++ filter (fun k => negb (has_key bond_fields k)) computed_keys)%list.
Proof.
  intros E. calc_steps E. subst o.
  match goal with S : dict_copy _ = Ok _ |- _ => injection S as <- end.
  match goal with
  | |- keys (dict_set (dict_set (dict_set (dict_set (dict_set (dict_set
         (dict_set (dict_set (dict_set (dict_set (dict_set ?d ?k1 ?v1)
         ?k2 ?v2) ?k3 ?v3) ?k4 ?v4) ?k5 ?v5) ?k6 ?v6) ?k7 ?v7) ?k8 ?v8)
         ?k9 ?v9) ?k10 ?v10) ?k11 ?v11) = _ =>
      change (keys (assign_all d
                [ (k1, v1); (k2, v2); (k3, v3); (k4, v4); (k5, v5); (k6, v6);
                  (k7, v7); (k8, v8); (k9, v9); (k10, v10); (k11, v11) ])
              = (keys d ++ filter (fun k => negb (has_key d k))
                                  computed_keys)%list)
  end.
  apply keys_assign_all. cbn [map fst].
  repeat (constructor; [cbn; intuition discriminate|]). constructor.
Qed.

(** *** The two tables *)

Lemma find_listed (table : list (string * Q)) (s : string) (q : Q) :
  NoDup (map fst table) ->
  In (s, q) table ->
  find (fun kv => String.eqb (fst kv) s) table = Some (s, q).
Proof.
  induction table as [|[k x] table IH]; cbn; intros Hnd Hin; [contradiction|].
  inversion Hnd as [|? ? Hk Hnd']; subst.
  destruct Hin as [[= -> ->] | Hin].
  - now rewrite String.eqb_refl.
  - destruct (String.eqb k s) eqn:Ek; [|now apply IH].
    apply String.eqb_eq in Ek. subst k. destruct Hk.
    apply in_map_iff. now exists (s, q).
Qed.

Lemma RATING_PD_keys_unique : NoDup (map fst RATING_PD).
Proof.
  cbn. repeat (constructor; [cbn; intuition discriminate|]). constructor.
Qed.

Lemma SECTOR_LGD_keys_unique : NoDup (map fst SECTOR_LGD).
Proof.
  cbn. repeat (constructor; [cbn; intuition discriminate|]). constructor.
Qed.

(** A rating and a sector listed in the tables give, as [pd] and [lgd],
    their table values times 100. *)
Theorem listed_rating_and_sector (bond : value num) (o : dict num)
    (rating sector : string) (p l : Q) :
  calculate_metrics bond = Ok (JObj o) ->
  subscript bond "rating" = Ok (JStr rating) ->
  In (rating, p) RATING_PD ->
  subscript bond "sector" = Ok (JStr sector) ->
  In (sector, l) SECTOR_LGD ->
  get_float o "pd" = Some (mul (lit p) (lit 100)) /\
  get_float o "lgd" = Some (mul (lit l) (lit 100)).
Proof.
  intros E Sr Hr Ss Hs. calc_steps E. subst o. same_reads.
  repeat match goal with T : table_get _ (JStr _) _ = Ok _ |- _ =>
    cbn [table_get] in T;
    first [ rewrite (find_listed _ _ _ RATING_PD_keys_unique Hr) in T
          | rewrite (find_listed _ _ _ SECTOR_LGD_keys_unique Hs) in T ];
    injection T as <- end.
  unfold get_float. dict_lookup. now split.
Qed.

(** A rating or a sector that is a list or an object cannot be looked up:
    [calculate_metrics] raises. *)
Theorem unhashable_key_raises (bond v : value num) :
  subscript bond "rating" = Ok v \/ subscript bond "sector" = Ok v ->
  hashable v = false ->
  raises (calculate_metrics bond).
Proof.
  intros S Hv.
  assert (Hr : forall table d, raises (@table_get num _ table v d)).
  { intros table d. exists TypeError. now destruct v. }
  pose proof (Hr RATING_PD 0.001%Q) as Hr1.
  pose proof (Hr SECTOR_LGD 0.40%Q) as Hr2.
  destruct S as [S | S]; reach_field S;
    match goal with
    | |- raises (match ?p with pair _ _ => _ end) => destruct p as [[? ?] ?]
    end;
    repeat first [ apply bind_raises; assumption | next_step ].
Qed.

End Results.

(** ** The further statements at concrete inputs *)

Section MoreInstances.
Import Exact Samples.
Local Open Scope Qc_scope.

Lemma results_follow_inputs_witness :
  main batch_loads sample_dumps {| stdin := "two bonds"; stdout := "" |}
  = (Ok tt,
     {| stdin := "";
        stdout := "" ++ sample_dumps
                    (JObj [("bonds",
                            JList [JObj (result_of example_bond);
                                   JObj (result_of one_year_bond)])]) |}).
Proof.
  apply (results_follow_inputs batch_loads sample_dumps
           {| stdin := "two bonds"; stdout := "" |}
           (JObj [("bonds", JList [example_bond; one_year_bond])])
           (JList [example_bond; one_year_bond])
           [example_bond; one_year_bond]).
  - reflexivity.
  - reflexivity.
  - reflexivity.
  - repeat constructor; vm_compute; reflexivity.
Defined.

(** The second of three bonds lacks [couponRate]; the third, null, is
    never reached. *)
Lemma first_failure_decides_exception_witness :
  main batch_loads sample_dumps
       {| stdin := "three bonds, second incomplete"; stdout := "" |}
  = (Raise KeyError, {| stdin := ""; stdout := "" |}).
Proof.
  apply (first_failure_decides_exception batch_loads sample_dumps
           {| stdin := "three bonds, second incomplete"; stdout := "" |}
           (JObj [("bonds", JList [example_bond; incomplete_bond; JNull])])
           (JList [example_bond; incomplete_bond; JNull])
           [example_bond] incomplete_bond [JNull] KeyError).
  - reflexivity.
  - reflexivity.
  - reflexivity.
  - repeat constructor. exists (JObj (result_of example_bond)).
    vm_compute. reflexivity.
  - reflexivity.
Defined.

Lemma missing_bonds_key_gives_empty_batch_witness :
  main batch_loads sample_dumps
       {| stdin := "object without bonds"; stdout := "" |}
  = (Ok tt, {| stdin := "";
               stdout := "" ++ sample_dumps (JObj [("bonds", JList [])]) |}).
Proof.
  apply (missing_bonds_key_gives_empty_batch batch_loads sample_dumps
           {| stdin := "object without bonds"; stdout := "" |}
           [("portfolio", JStr "A")]).
  - reflexivity.
  - reflexivity.
Defined.

Lemma non_object_payload_raises_AttributeError_witness :
  main batch_loads sample_dumps {| stdin := "a list"; stdout := "" |}
  = (Raise AttributeError, {| stdin := ""; stdout := "" |}).
Proof.
  apply (non_object_payload_raises_AttributeError batch_loads sample_dumps
           {| stdin := "a list"; stdout := "" |} (JList [example_bond])).
  - reflexivity.
  - intros o. discriminate.
Defined.

Lemma bonds_not_a_list_raises_TypeError_witness :
  main batch_loads sample_dumps {| stdin := "bonds as text"; stdout := "" |}
  = (Raise TypeError, {| stdin := ""; stdout := "" |}).
Proof.
  apply (bonds_not_a_list_raises_TypeError batch_loads sample_dumps
           {| stdin := "bonds as text"; stdout := "" |}
           (JObj [("bonds", JStr "AB")]) (JStr "AB")).
  - reflexivity.
  - reflexivity.
  - intros l. discriminate.
  - discriminate.
Defined.

Lemma cashflow_schedule_witness :
  exists coupon_frac ytm cfs,
    div (Q2Qc 5) (lit 100) = Ok coupon_frac /\
    div (Q2Qc 6) (lit 100) = Ok ytm /\
    dict_get (result_of example_bond) "cashflows"
      = Some (JList (map cashflow_value cfs)) /\
    map year cfs = range 1 (2 + 1) /\
    Forall (scheduled (Q2Qc 1000) (mul (Q2Qc 1000) coupon_frac) ytm 2) cfs.
Proof.
  apply (cashflow_schedule example_bond (result_of example_bond)
           (Q2Qc 1000) (Q2Qc 5) (Q2Qc 6) 2).
  - vm_compute. reflexivity.
  - eexists. split; reflexivity.
  - eexists. split; reflexivity.
  - eexists. split; reflexivity.
  - eexists. split; reflexivity.
Defined.

Lemma risk_figures_from_result_fields_witness :
  exists dur mp pd lgd pd_frac lgd_frac,
    get_float (result_of example_bond) "duration" = Some dur /\
    get_float (result_of example_bond) "marketPrice" = Some mp /\
    get_float (result_of example_bond) "pd" = Some pd /\
    get_float (result_of example_bond) "lgd" = Some lgd /\
    get_float (result_of example_bond) "pv01"
      = Some (mul (mul dur mp) (lit 0.0001)) /\
    get_float (result_of example_bond) "dv01"
      = Some (mul (mul dur mp) (lit 0.0001)) /\
    div pd (lit 100) = Ok pd_frac /\
    div lgd (lit 100) = Ok lgd_frac /\
    get_float (result_of example_bond) "expectedLoss"
      = Some (mul (mul pd_frac lgd_frac) mp).
Proof.
  apply (risk_figures_from_result_fields example_bond).
  vm_compute. reflexivity.
Defined.

(** A bond sold short has a negative price. *)
Lemma degenerate_price_zeroes_durations_witness :
  get_float (result_of short_bond) "macaulayDuration" = Some (lit 0) /\
  get_float (result_of short_bond) "duration" = Some (lit 0) /\
  get_float (result_of short_bond) "convexity" = Some (lit 0).
Proof.
  apply (degenerate_price_zeroes_durations short_bond (result_of short_bond)
           (- (Q2Qc 2757500 / Q2Qc 2809))).
  - vm_compute. reflexivity.
  - vm_compute. apply f_equal, Qc_is_canon. reflexivity.
  - reflexivity.
Defined.

Lemma computed_fields_always_present_witness :
  Forall (fun k => exists x, get_float (result_of stale_bond) k = Some x)
         float_computed_keys /\
  exists entries,
    dict_get (result_of stale_bond) "cashflows" = Some (JList entries).
Proof.
  apply (computed_fields_always_present stale_bond).
  vm_compute. reflexivity.
Defined.

(** [marketPrice] and [cashflows] stay where the bond had them; the nine
    other computed keys follow the keys of the bond. *)
Lemma result_key_order_witness :
  keys (result_of stale_bond)
  = [ "marketPrice"; "faceValue"; "couponRate"; "yieldToMaturity";
      "cashflows"; "maturityYears"; "type"; "rating"; "sector";
      "macaulayDuration"; "duration"; "convexity"; "pv01"; "dv01"; "cr01";
      "pd"; "lgd"; "expectedLoss" ].
Proof.
  apply (result_key_order
           [ ("marketPrice", JStr "n/a"); ("faceValue", JInt 1000);
             ("couponRate", JInt 5); ("yieldToMaturity", JInt 6);
             ("cashflows", JNull); ("maturityYears", JInt 2);
             ("type", JStr "Corporate"); ("rating", JStr "BBB");
             ("sector", JStr "Technology") ]
           (result_of stale_bond)).
  vm_compute. reflexivity.
Defined.

Lemma listed_rating_and_sector_witness :
  get_float (result_of example_bond) "pd"
    = Some (mul (lit 0.007) (lit 100)) /\
  get_float (result_of example_bond) "lgd"
    = Some (mul (lit 0.40) (lit 100)).
Proof.
  apply (listed_rating_and_sector example_bond (result_of example_bond)
           "BBB" "Technology" 0.007%Q 0.40%Q).
  - vm_compute. reflexivity.
  - reflexivity.
  - cbn. tauto.
  - reflexivity.
  - cbn. tauto.
Defined.

Lemma unhashable_key_raises_witness :
  raises (calculate_metrics list_rated_bond).
Proof.
  apply (unhashable_key_raises list_rated_bond (JList [JStr "BBB"])).
  - left. reflexivity.
  - reflexivity.
Defined.

End MoreInstances.

(** ** Running [calculate_metrics] forwards, for every arithmetic *)

Section Forwards.
Context {num : Type} `{PyFloat num}.

Lemma range_nil (lo hi : Z) : hi <= lo -> range lo hi = [].
Proof.
  intros Hle. unfold range.
  now replace (Z.to_nat (hi - lo)) with 0%nat by lia.
Qed.

Lemma range_snoc (lo hi : Z) :
  lo <= hi -> range lo (hi + 1) = (range lo hi ++ [hi])%list.
Proof.
  intros Hle. unfold range.
  replace (Z.to_nat (hi + 1 - lo)) with (S (Z.to_nat (hi - lo))) by lia.
  rewrite seq_S, map_app. simpl. do 2 f_equal. lia.
Qed.

Lemma range_cons (lo hi : Z) :
  lo < hi -> range lo hi = lo :: range (lo + 1) hi.
Proof.
  intros Hlt. unfold range.
  replace (Z.to_nat (hi - lo)) with (S (Z.to_nat (hi - (lo + 1)))) by lia.
  cbn [seq map]. f_equal; [lia|].
  rewrite <- seq_shift, map_map. apply map_ext. intros i. lia.
Qed.

Lemma range_bounds (lo hi y : Z) : In y (range lo hi) -> lo <= y < hi.
Proof.
  unfold range. intros Hin. apply in_map_iff in Hin as (i & <- & Hi).
  apply in_seq in Hi. lia.
Qed.

Lemma table_get_returns (table : list (string * Q)) (key : value num)
    (default : Q) :
  hashable key = true -> returns (table_get table key default).
Proof.
  destruct key; simpl; try discriminate; intros _;
    try (eexists; reflexivity).
  destruct (find _ table); eexists; reflexivity.
Qed.

(** A lookup returns the default or one of the values of the table. *)
Lemma table_get_values (table : list (string * Q)) (key : value num)
    (default : Q) (x : num) :
  table_get table key default = Ok x ->
  In x (map lit (default :: map snd table)).
Proof.
  destruct key; cbn [table_get]; try discriminate;
    try (intros [= <-]; now left).
  destruct (find _ table) as [kv|] eqn:F; intros [= <-]; [|now left].
  apply find_some in F as [Hin _]. right.
  rewrite map_map. apply in_map_iff. now exists kv.
Qed.

(** Once each statement of the function is known to return, the function
    returns, and its result holds the figures below. *)
Lemma calculate_metrics_forward (bond ty rating sector : value num)
    (fv cr yp : num) (n : Z) (ytm cf : num) (st : loop_state num)
    (mac dur conv pdf lgdf pd_back lgd_back : num) :
  reads_as bond fv cr yp n ty rating sector ->
  div yp (lit 100) = Ok ytm ->
  div cr (lit 100) = Ok cf ->
  foldM (loop_body fv (mul fv cf) ytm n) (range 1 (n + 1)) loop_init
    = Ok st ->
  durations ytm st = Ok (mac, dur, conv) ->
  table_get RATING_PD rating 0.001 = Ok pdf ->
  table_get SECTOR_LGD sector 0.40 = Ok lgdf ->
  div (mul pdf (lit 100)) (lit 100) = Ok pd_back ->
  div (mul lgdf (lit 100)) (lit 100) = Ok lgd_back ->
  exists o,
    calculate_metrics bond = Ok (JObj o) /\
    dict_get o "cashflows"
      = Some (JList (map cashflow_value (cashflows st))) /\
    get_float o "marketPrice" = Some (market_price st) /\
    get_float o "macaulayDuration" = Some mac /\
    get_float o "duration" = Some dur /\
    get_float o "convexity" = Some conv /\
    get_float o "pv01"
      = Some (mul (mul dur (market_price st)) (lit 0.0001)) /\
    get_float o "dv01"
      = Some (mul (mul dur (market_price st)) (lit 0.0001)) /\
    get_float o "cr01"
      = Some (if eq_str ty "Corporate"
              then mul (mul dur (market_price st)) (lit 0.0001)
              else lit 0) /\
    get_float o "pd" = Some (mul pdf (lit 100)) /\
    get_float o "lgd" = Some (mul lgdf (lit 100)) /\
    get_float o "expectedLoss"
      = Some (mul (mul pd_back lgd_back) (market_price st)).
Proof.
  intros ((v1 & S1 & F1) & (v2 & S2 & F2) & (v3 & S3 & F3) & (v4 & S4 & F4)
          & S5 & (S6 & H6) & (S7 & H7)) Hy Hc Hloop Hdur Hpd Hlgd Hpb Hlb.
  destruct (subscript_Ok _ _ _ S1) as (o & -> & _).
  eexists. unfold calculate_metrics.
  rewrite S1; cbn [bind]. rewrite F1; cbn [bind].
  rewrite S2; cbn [bind]. rewrite F2; cbn [bind].
  rewrite S3; cbn [bind]. rewrite F3; cbn [bind].
  rewrite Hy; cbn [bind].
  rewrite S4; cbn [bind]. rewrite F4; cbn [bind].
  rewrite S5, S6, S7; cbn [bind].
  rewrite Hc; cbn [bind].
  rewrite Hloop; cbn [bind]. rewrite Hdur; cbn [bind].
  rewrite Hpd; cbn [bind]. rewrite Hlgd; cbn [bind].
  rewrite Hpb; cbn [bind]. rewrite Hlb; cbn [bind dict_copy].
  split; [reflexivity|].
  unfold get_float. dict_lookup.
  repeat split; reflexivity.
Qed.

End Forwards.

(** ** Properties in binary64 arithmetic *)

Import B64 Samples64.

(** Splits the membership of a float in the values of a table into its
    cases. *)
Ltac table_cases Hin :=
  unfold RATING_PD, SECTOR_LGD in Hin; cbn [map snd In] in Hin;
  repeat (destruct Hin as [<- | Hin]); [ .. | contradiction ].

Section Binary64.
Context {R : runtime}.

(** Dividing by the literal 100.0 never raises. *)
Lemma div_hundred (x : float) :
  div x (lit 100) = Ok (PrimFloat.div x (b64_lit 100)).
Proof.
  reflexivity.
Qed.

(** *** Maturities that are not positive *)

(** Whatever the rating and the sector, the expected loss on a price of 0.0
    is 0.0. *)
Lemma expected_loss_of_zero_price (pdf lgdf : float) :
  In pdf (map lit (0.001%Q :: map snd RATING_PD)) ->
  In lgdf (map lit (0.40%Q :: map snd SECTOR_LGD)) ->
  PrimFloat.mul
    (PrimFloat.mul
       (PrimFloat.div (PrimFloat.mul pdf (b64_lit 100)) (b64_lit 100))
       (PrimFloat.div (PrimFloat.mul lgdf (b64_lit 100)) (b64_lit 100)))
    PrimFloat.zero
  = PrimFloat.zero.
Proof.
  intros Hp Hl. table_cases Hp; table_cases Hl; vm_compute; reflexivity.
Qed.

(** C10: when [maturityYears] converts to an integer that is zero or
    negative, and the other required fields are present and convert,
    [calculate_metrics] returns a result with no cashflow, with a market
    price, durations, convexity, PV01, DV01, CR01 and expected loss of 0.0,
    and with [pd] and [lgd] taken from the two tables. *)
Theorem nonpositive_maturity_gives_zero_metrics
    (bond ty rating sector : value float) (fv cr yp : float) (n : Z) :
  reads_as bond fv cr yp n ty rating sector ->
  n <= 0 ->
  exists o pd_frac lgd_frac,
    calculate_metrics bond = Ok (JObj o) /\
    table_get RATING_PD rating 0.001 = Ok pd_frac /\
    table_get SECTOR_LGD sector 0.40 = Ok lgd_frac /\
    dict_get o "cashflows" = Some (JList []) /\
    get_float o "marketPrice" = Some PrimFloat.zero /\
    get_float o "macaulayDuration" = Some PrimFloat.zero /\
    get_float o "duration" = Some PrimFloat.zero /\
    get_float o "convexity" = Some PrimFloat.zero /\
    get_float o "pv01" = Some PrimFloat.zero /\
    get_float o "dv01" = Some PrimFloat.zero /\
    get_float o "cr01" = Some PrimFloat.zero /\
    get_float o "expectedLoss" = Some PrimFloat.zero /\
    get_float o "pd" = Some (PrimFloat.mul pd_frac (b64_lit 100)) /\
    get_float o "lgd" = Some (PrimFloat.mul lgd_frac (b64_lit 100)).
Proof.
  intros Hread Hn.
  pose proof Hread as (_ & _ & _ & _ & _ & (_ & Hr) & (_ & Hs)).
  destruct (table_get_returns RATING_PD rating 0.001 Hr) as [pdf Hpd].
  destruct (table_get_returns SECTOR_LGD sector 0.40 Hs) as [lgdf Hlgd].
  destruct (calculate_metrics_forward bond ty rating sector fv cr yp n
              _ _ loop_init (lit 0) (lit 0) (lit 0) pdf lgdf
              (PrimFloat.div (PrimFloat.mul pdf (b64_lit 100)) (b64_lit 100))
              (PrimFloat.div (PrimFloat.mul lgdf (b64_lit 100)) (b64_lit 100))
              Hread (div_hundred yp) (div_hundred cr))
    as (o & E & Hcf & Hmp & Hmac & Hdur & Hconv & Hpv & Hdv & Hcr & Hp & Hl
        & Hel); try reflexivity; try assumption.
  - now rewrite range_nil by lia.
  - exists o, pdf, lgdf.
    assert (Hel' : get_float o "expectedLoss" = Some PrimFloat.zero).
    { rewrite Hel. f_equal.
      exact (expected_loss_of_zero_price pdf lgdf
               (table_get_values _ _ _ _ Hpd)
               (table_get_values _ _ _ _ Hlgd)). }
    replace (if eq_str ty "Corporate"
             then mul (mul (lit 0) (market_price loop_init)) (lit 0.0001)
             else lit 0) with PrimFloat.zero in Hcr
      by (now destruct (eq_str ty "Corporate")).
    repeat split; assumption.
Qed.

(** *** Percentages *)

Lemma rating_percent_in_range (x : float) :
  In x (map lit (0.001%Q :: map snd RATING_PD)) ->
  PrimFloat.leb PrimFloat.zero (PrimFloat.mul x (b64_lit 100)) = true /\
  PrimFloat.leb (PrimFloat.mul x (b64_lit 100)) (b64_lit 100) = true.
Proof.
  intros Hx. table_cases Hx; vm_compute; split; reflexivity.
Qed.

Lemma sector_percent_in_range (x : float) :
  In x (map lit (0.40%Q :: map snd SECTOR_LGD)) ->
  PrimFloat.leb PrimFloat.zero (PrimFloat.mul x (b64_lit 100)) = true /\
  PrimFloat.leb (PrimFloat.mul x (b64_lit 100)) (b64_lit 100) = true.
Proof.
  intros Hx. table_cases Hx; vm_compute; split; reflexivity.
Qed.

(** Whatever the rating and the sector, listed or not, the [pd] and the
    [lgd] of a result are floats between 0.0 and 100.0. *)
Theorem pd_and_lgd_are_percentages (bond : value float) (o : dict float) :
  calculate_metrics bond = Ok (JObj o) ->
  exists pd lgd,
    get_float o "pd" = Some pd /\
    PrimFloat.leb PrimFloat.zero pd = true /\
    PrimFloat.leb pd (b64_lit 100) = true /\
    get_float o "lgd" = Some lgd /\
    PrimFloat.leb PrimFloat.zero lgd = true /\
    PrimFloat.leb lgd (b64_lit 100) = true.
Proof.
  intros E. calc_steps E. subst o.
  repeat match goal with
         | T : table_get RATING_PD _ _ = Ok _ |- _ =>
             apply table_get_values, rating_percent_in_range in T as [? ?]
         | T : table_get SECTOR_LGD _ _ = Ok _ |- _ =>
             apply table_get_values, sector_percent_in_range in T as [? ?]
         end.
  do 2 eexists. unfold get_float. dict_lookup.
  repeat split; assumption.
Qed.

(** *** Facts about the primitive operations *)

Lemma is_zero_cases (x : float) :
  PrimFloat.is_zero x = true ->
  x = PrimFloat.zero \/ x = PrimFloat.neg_zero.
Proof.
  unfold PrimFloat.is_zero. rewrite FloatAxioms.eqb_spec.
  change (FloatOps.Prim2SF PrimFloat.zero) with (SpecFloat.S754_zero false).
  intros H. rewrite <- (FloatAxioms.SF2Prim_Prim2SF x).
  destruct (FloatOps.Prim2SF x) as [s|s| |s m e]; try discriminate H.
  - destruct s; [right | left]; reflexivity.
  - destruct s; discriminate H.
  - destruct s; discriminate H.
Qed.

(** A float above 0.0 is a positive finite number or the positive
    infinity. *)
Lemma positive_cases (x : float) :
  PrimFloat.ltb PrimFloat.zero x = true ->
  FloatOps.Prim2SF x = SpecFloat.S754_infinity false \/
  exists m e, FloatOps.Prim2SF x = SpecFloat.S754_finite false m e.
Proof.
  rewrite FloatAxioms.ltb_spec.
  change (FloatOps.Prim2SF PrimFloat.zero) with (SpecFloat.S754_zero false).
  destruct (FloatOps.Prim2SF x) as [s|s| |s m e]; try discriminate.
  - destruct s; [discriminate | now left].
  - destruct s; [discriminate | right; eauto].
Qed.

Lemma finite_positive_cases (x : float) :
  PrimFloat.is_finite x = true ->
  PrimFloat.ltb PrimFloat.zero x = true ->
  exists m e, FloatOps.Prim2SF x = SpecFloat.S754_finite false m e.
Proof.
  intros Hf Hp. destruct (positive_cases x Hp) as [Hi | Hx]; [|exact Hx].
  rewrite <- (FloatAxioms.SF2Prim_Prim2SF x), Hi in Hf. discriminate Hf.
Qed.

Lemma finite_positive_mul_zero (x : float) :
  PrimFloat.is_finite x = true ->
  PrimFloat.ltb PrimFloat.zero x = true ->
  PrimFloat.mul x PrimFloat.zero = PrimFloat.zero.
Proof.
  intros Hf Hp. destruct (finite_positive_cases x Hf Hp) as (m & e & Hx).
  apply FloatAxioms.Prim2SF_inj. rewrite FloatAxioms.mul_spec, Hx.
  reflexivity.
Qed.

Lemma zero_div_positive (p : float) :
  PrimFloat.ltb PrimFloat.zero p = true ->
  PrimFloat.div PrimFloat.zero p = PrimFloat.zero.
Proof.
  intros Hp. apply FloatAxioms.Prim2SF_inj. rewrite FloatAxioms.div_spec.
  destruct (positive_cases p Hp) as [-> | (m & e & ->)]; reflexivity.
Qed.

Lemma zero_add_positive (x : float) :
  PrimFloat.ltb PrimFloat.zero x = true ->
  PrimFloat.add PrimFloat.zero x = x.
Proof.
  intros Hp. apply FloatAxioms.Prim2SF_inj. rewrite FloatAxioms.add_spec.
  destruct (positive_cases x Hp) as [-> | (m & e & ->)]; reflexivity.
Qed.

(** A float that is not below 0.0 and is not a zero is above 0.0. *)
Lemma nonnegative_nonzero_positive (p : float) :
  PrimFloat.leb PrimFloat.zero p = true ->
  PrimFloat.eqb p PrimFloat.zero = false ->
  PrimFloat.ltb PrimFloat.zero p = true.
Proof.
  rewrite FloatAxioms.leb_spec, FloatAxioms.eqb_spec, FloatAxioms.ltb_spec.
  change (FloatOps.Prim2SF PrimFloat.zero) with (SpecFloat.S754_zero false).
  destruct (FloatOps.Prim2SF p) as [s|s| |s m e]; try discriminate;
    destruct s; try discriminate; reflexivity.
Qed.

(** Rounding a magnitude with a positive sign never gives the negative
    zero. *)
Lemma round_positive_not_neg_zero (m e : Z) (l : SpecFloat.location) :
  SpecFloat.binary_round_aux FloatOps.prec FloatOps.emax false m e l
  <> SpecFloat.S754_zero true.
Proof.
  unfold SpecFloat.binary_round_aux.
  destruct (SpecFloat.shr_fexp _ _ m e l) as [mrs' e'].
  destruct (SpecFloat.shr_fexp _ _ _ e' SpecFloat.loc_Exact) as [mrs'' e''].
  destruct (SpecFloat.shr_m mrs''); try discriminate.
  destruct (_ <=? _); discriminate.
Qed.

(** Adding 0.0 to the quotient of two floats above 0.0 changes nothing. *)
Lemma zero_add_positive_quotient (x p : float) :
  PrimFloat.ltb PrimFloat.zero x = true ->
  PrimFloat.ltb PrimFloat.zero p = true ->
  PrimFloat.add PrimFloat.zero (PrimFloat.div x p) = PrimFloat.div x p.
Proof.
  intros Hx Hp. apply FloatAxioms.Prim2SF_inj.
  rewrite FloatAxioms.add_spec, FloatAxioms.div_spec.
  change (FloatOps.Prim2SF PrimFloat.zero) with (SpecFloat.S754_zero false).
  destruct (positive_cases x Hx) as [-> | (mx & ex & ->)];
    destruct (positive_cases p Hp) as [-> | (mp & ep & ->)];
    try reflexivity.
  unfold FloatAxioms.SF64div, SpecFloat.SFdiv.
  destruct (SpecFloat.SFdiv_core_binary _ _ _ _ _ _) as [[mz ez] lz].
  cbn [xorb].
  pose proof (round_positive_not_neg_zero mz ez lz) as Hnz.
  destruct (SpecFloat.binary_round_aux _ _ false mz ez lz) as [s|s| |s m e];
    try reflexivity.
  destruct s; [now destruct Hnz | reflexivity].
Qed.

(** *** A yield of -100 percent *)

(** With a yield of -100 percent the discount factor 1 + ytm is zero.  The
    first power of zero is zero (whatever else the library's [pow] does),
    so a bond with a maturity of one year or more raises
    [ZeroDivisionError] at its first cashflow and returns no result. *)
Theorem zero_discount_factor_raises (bond ty rating sector : value float)
    (fv cr yp : float) (n : Z) :
  reads_as bond fv cr yp n ty rating sector ->
  1 <= n ->
  let q := PrimFloat.add (b64_lit 1) (PrimFloat.div yp (b64_lit 100)) in
  PrimFloat.is_zero q = true ->
  PrimFloat.is_zero (libm_pow q PrimFloat.one) = true ->
  calculate_metrics bond = Raise ZeroDivisionError.
Proof.
  intros ((v1 & S1 & F1) & (v2 & S2 & F2) & (v3 & S3 & F3) & (v4 & S4 & F4)
          & S5 & (S6 & H6) & (S7 & H7)) Hn q Hq Hr.
  unfold calculate_metrics.
  rewrite S1; cbn [bind]. rewrite F1; cbn [bind].
  rewrite S2; cbn [bind]. rewrite F2; cbn [bind].
  rewrite S3; cbn [bind]. rewrite F3; cbn [bind].
  rewrite div_hundred; cbn [bind].
  rewrite S4; cbn [bind]. rewrite F4; cbn [bind].
  rewrite S5, S6, S7; cbn [bind].
  rewrite div_hundred; cbn [bind].
  rewrite range_cons by lia. cbn [foldM]. unfold loop_body at 1.
  change (add (lit 1) (PrimFloat.div yp (b64_lit 100))) with q.
  assert (Hpow : pow q 1 = Ok (libm_pow q PrimFloat.one)).
  { cbn [pow binary64]. unfold b64_pow.
    change (b64_of_int 1) with (Ok PrimFloat.one). cbn [bind].
    unfold math_pow.
    destruct (is_zero_cases q Hq) as [Eq | Eq];
      destruct (is_zero_cases _ Hr) as [Er | Er];
      rewrite Eq in *; rewrite Er; reflexivity. }
  rewrite Hpow. cbn [bind div binary64]. unfold b64_div.
  unfold PrimFloat.is_zero in Hr. rewrite Hr. reflexivity.
Qed.

(** *** Zero-coupon bonds *)

(** A year before the last of a bond that pays no coupon leaves the price
    at 0.0, as long as no power of the discount factor is below 0.0. *)
Lemma zero_coupon_early_years (fv ytm : float) (n : Z) (years : list Z) :
  (forall y p, In y years ->
     pow (add (lit 1) ytm) y = Ok p ->
     PrimFloat.leb PrimFloat.zero p = true) ->
  (forall y, In y years -> y <> n) ->
  forall st st',
    foldM (loop_body fv PrimFloat.zero ytm n) years st = Ok st' ->
    market_price st = PrimFloat.zero ->
    market_price st' = PrimFloat.zero.
Proof.
  induction years as [|y years IH]; intros Hpow Hne st st' E Hmp;
    cbn [foldM] in E.
  - now injection E as <-.
  - apply bind_Ok in E as (st1 & E1 & E2).
    apply (IH (fun z p Hz => Hpow z p (or_intror Hz))
              (fun z Hz => Hne z (or_intror Hz)) st1 st' E2).
    unfold loop_body in E1.
    apply bind_Ok in E1 as (p & Hp & E1).
    apply bind_Ok in E1 as (d & Hd & E1).
    injection E1 as <-. cbn [market_price]. rewrite Hmp.
    replace (y =? n) with false in Hd
      by (symmetry; apply Z.eqb_neq, Hne; now left).
    change (add PrimFloat.zero (lit 0)) with PrimFloat.zero in Hd.
    cbn [div binary64] in Hd. unfold b64_div in Hd.
    destruct (PrimFloat.eqb p PrimFloat.zero) eqn:Hnz; [discriminate Hd|].
    injection Hd as <-.
    rewrite (zero_div_positive p
               (nonnegative_nonzero_positive p
                  (Hpow y p (or_introl eq_refl) Hp) Hnz)).
    reflexivity.
Qed.

(** The loop of a bond that pays no coupon, when it runs to its end, leaves
    the face value divided by the last power of the discount factor. *)
Lemma zero_coupon_loop (fv ytm : float) (n : Z) (st : loop_state float) :
  PrimFloat.ltb PrimFloat.zero fv = true ->
  1 <= n ->
  (forall y p, 1 <= y <= n ->
     pow (add (lit 1) ytm) y = Ok p ->
     PrimFloat.leb PrimFloat.zero p = true) ->
  foldM (loop_body fv PrimFloat.zero ytm n) (range 1 (n + 1)) loop_init
    = Ok st ->
  exists p,
    pow (add (lit 1) ytm) n = Ok p /\
    market_price st = PrimFloat.div fv p.
Proof.
  intros Hfv Hn Hpow E.
  rewrite range_snoc, foldM_app in E by assumption.
  apply bind_Ok in E as (st1 & E1 & E2).
  apply zero_coupon_early_years in E1; [ | | | reflexivity].
  - cbn [foldM] in E2. apply bind_Ok in E2 as (st2 & E2 & E3).
    injection E3 as <-. unfold loop_body in E2.
    apply bind_Ok in E2 as (p & Hp & E2).
    apply bind_Ok in E2 as (d & Hd & E2).
    injection E2 as <-. exists p. split; [exact Hp|].
    cbn [market_price]. rewrite E1. rewrite Z.eqb_refl in Hd.
    cbn [div add binary64] in Hd. unfold b64_div in Hd.
    destruct (PrimFloat.eqb p PrimFloat.zero) eqn:Hnz; [discriminate Hd|].
    injection Hd as <-. rewrite (zero_add_positive fv Hfv).
    apply zero_add_positive_quotient; [assumption|].
    apply nonnegative_nonzero_positive; [|exact Hnz].
    apply (Hpow n p); [lia | assumption].
  - intros y p Hy. apply range_bounds in Hy. apply Hpow. lia.
  - intros y Hy. apply range_bounds in Hy. lia.
Qed.

(** C3, as amended: for a bond with coupon rate 0.0, a finite face value
    F > 0, a maturity of N >= 1 whole years and a yield of r percent with
    1 + r/100 > 0, no power of 1 + r/100 that [math.pow] returns being
    below 0.0, the market price of the result, whenever the function
    returns one, is exactly the float F / math.pow(1 + r/100, N), both
    operations rounded as binary64 rounds them. *)
Theorem zero_coupon_price (bond ty rating sector : value float)
    (o : dict float) (F r : float) (N : Z) :
  reads_as bond F PrimFloat.zero r N ty rating sector ->
  PrimFloat.is_finite F = true ->
  PrimFloat.ltb PrimFloat.zero F = true ->
  1 <= N ->
  let q := PrimFloat.add (b64_lit 1) (PrimFloat.div r (b64_lit 100)) in
  PrimFloat.ltb PrimFloat.zero q = true ->
  (forall y p, 1 <= y <= N -> pow q y = Ok p ->
     PrimFloat.leb PrimFloat.zero p = true) ->
  calculate_metrics bond = Ok (JObj o) ->
  exists p,
    pow q N = Ok p /\
    get_float o "marketPrice" = Some (PrimFloat.div F p).
Proof.
  intros ((v1 & S1 & F1) & (v2 & S2 & F2) & (v3 & S3 & F3) & (v4 & S4 & F4)
          & _) HF HF0 HN q _ Hpow E.
  calc_steps E. subst o. same_reads.
  repeat match goal with
         | D : div _ (lit 100) = Ok _ |- _ =>
             rewrite div_hundred in D; injection D as <-
         end.
  match goal with L : foldM (loop_body F ?ac _ N) _ _ = Ok _ |- _ =>
    assert (Hac : ac = PrimFloat.zero)
      by exact (finite_positive_mul_zero F HF HF0);
    rewrite Hac in L;
    apply zero_coupon_loop in L as (p & Hp & Hmp);
      [ | assumption | assumption | exact Hpow ]
  end.
  exists p. split; [exact Hp|].
  unfold get_float. dict_lookup. now rewrite Hmp.
Qed.

(** *** The end-to-end example *)

(** [math.pow] returns what the library returns when the arguments and the
    result are finite. *)
Lemma pow_returns (x : float) (n : Z) (y r : float) :
  b64_of_int n = Ok y ->
  PrimFloat.is_finite x = true ->
  PrimFloat.is_finite y = true ->
  libm_pow x y = r ->
  PrimFloat.is_finite r = true ->
  pow x n = Ok r.
Proof.
  intros Hy Hx Hfy Hr Hfr. cbn [pow binary64]. unfold b64_pow.
  rewrite Hy. cbn [bind]. unfold math_pow. rewrite Hx, Hfy, Hr. cbn [andb].
  unfold PrimFloat.is_finite in Hfr.
  destruct (PrimFloat.is_nan r); [discriminate Hfr|].
  destruct (PrimFloat.is_infinity r); [discriminate Hfr | reflexivity].
Qed.

(** Evaluates the closed left-hand side of an equation and gives its value
    to the right-hand side. *)
Ltac evaluate :=
  lazymatch goal with
  | |- ?lhs = ?rhs =>
      let v := eval vm_compute in lhs in unify rhs v
  end;
  vm_compute; reflexivity.

(** The example, for given values of the two powers. *)
Lemma example_figures_for (p1 p2 : float) :
  libm_pow example_factor (of_Z 1) = p1 ->
  libm_pow example_factor (of_Z 2) = p2 ->
  In p1 [ PrimFloat.next_down (rounded_pow example_factor 1);
          rounded_pow example_factor 1;
          PrimFloat.next_up (rounded_pow example_factor 1) ] ->
  In p2 [ PrimFloat.next_down (rounded_pow example_factor 2);
          rounded_pow example_factor 2;
          PrimFloat.next_up (rounded_pow example_factor 2) ] ->
  exists o,
    calculate_metrics example64 = Ok (JObj o) /\
    cashflow_years o = [Some (JInt 1); Some (JInt 2)] /\
    cashflow_float o 0 "coupon" = Some (of_Z 50) /\
    cashflow_float o 0 "principal" = Some PrimFloat.zero /\
    cashflow_float o 0 "total" = Some (of_Z 50) /\
    close (cashflow_float o 0 "discounted") 47.17 0.005 = true /\
    cashflow_float o 1 "coupon" = Some (of_Z 50) /\
    cashflow_float o 1 "principal" = Some (of_Z 1000) /\
    cashflow_float o 1 "total" = Some (of_Z 1050) /\
    close (cashflow_float o 1 "discounted") 934.50 0.005 = true /\
    close (get_float o "marketPrice") 981.67 0.005 = true /\
    close (get_float o "macaulayDuration") 1.9519 0.00005 = true /\
    close (get_float o "duration") 1.8415 0.00005 = true /\
    close (get_float o "pv01") 0.18077 0.000005 = true /\
    get_float o "dv01" = get_float o "pv01" /\
    get_float o "cr01" = get_float o "pv01" /\
    get_float o "pd" = Some (PrimFloat.mul (b64_lit 0.007) (b64_lit 100)) /\
    close (get_float o "pd") 0.7 0.000000001 = true /\
    get_float o "lgd" = Some (of_Z 40) /\
    close (get_float o "expectedLoss") 2.749 0.0005 = true.
Proof.
  intros H1 H2 Hp1 Hp2.
  assert (P1 : pow example_factor 1 = Ok p1).
  { apply pow_returns with (y := of_Z 1); try reflexivity; [exact H1|].
    cbn [In] in Hp1. repeat (destruct Hp1 as [<- | Hp1]);
      [ .. | contradiction ]; reflexivity. }
  assert (P2 : pow example_factor 2 = Ok p2).
  { apply pow_returns with (y := of_Z 2); try reflexivity; [exact H2|].
    cbn [In] in Hp2. repeat (destruct Hp2 as [<- | Hp2]);
      [ .. | contradiction ]; reflexivity. }
  clear H1 H2.
  cbn [In] in Hp1, Hp2.
  repeat (destruct Hp1 as [Hp1 | Hp1]); [ .. | contradiction ];
    (repeat (destruct Hp2 as [Hp2 | Hp2]); [ .. | contradiction ]);
    vm_compute in Hp1, Hp2; subst p1 p2;
    (edestruct (calculate_metrics_forward example64
                  (JStr "Corporate") (JStr "BBB") (JStr "Technology")
                  (of_Z 1000) (of_Z 5) (of_Z 6) 2)
      as (o & E & Hcf & Hmp & Hmac & Hdur & Hconv & Hpv & Hdv & Hcr & Hpd
          & Hlgd & Hel);
     [ repeat split; try (eexists; split; reflexivity)
     | evaluate
     | evaluate
     | change (range 1 (2 + 1)) with [1; 2]; cbn [foldM];
       unfold loop_body;
       change (@add float binary64 (@lit float binary64 1) _)
         with example_factor;
       rewrite P1, P2; evaluate
     | evaluate | evaluate | evaluate | evaluate | evaluate
     | exists o; split; [exact E|];
       unfold cashflow_years, cashflow_float;
       rewrite Hcf, Hmp, Hmac, Hdur, Hpv, Hdv, Hcr, Hpd, Hlgd, Hel;
       vm_compute; repeat split ]).
Qed.

(** C2, as amended: the figures of the example bond in binary64, for every
    library [pow] that is within one unit in the last place of the exact
    first and second powers of the discount factor.  Coupons, principals,
    totals and [lgd] are exact; the other figures are given to the number
    of decimals of the claim, within half a unit of the last one. *)
Theorem example_figures :
  accurate_pow example_factor 1 ->
  accurate_pow example_factor 2 ->
  exists o,
    calculate_metrics example64 = Ok (JObj o) /\
    cashflow_years o = [Some (JInt 1); Some (JInt 2)] /\
    cashflow_float o 0 "coupon" = Some (of_Z 50) /\
    cashflow_float o 0 "principal" = Some PrimFloat.zero /\
    cashflow_float o 0 "total" = Some (of_Z 50) /\
    close (cashflow_float o 0 "discounted") 47.17 0.005 = true /\
    cashflow_float o 1 "coupon" = Some (of_Z 50) /\
    cashflow_float o 1 "principal" = Some (of_Z 1000) /\
    cashflow_float o 1 "total" = Some (of_Z 1050) /\
    close (cashflow_float o 1 "discounted") 934.50 0.005 = true /\
    close (get_float o "marketPrice") 981.67 0.005 = true /\
    close (get_float o "macaulayDuration") 1.9519 0.00005 = true /\
    close (get_float o "duration") 1.8415 0.00005 = true /\
    close (get_float o "pv01") 0.18077 0.000005 = true /\
    get_float o "dv01" = get_float o "pv01" /\
    get_float o "cr01" = get_float o "pv01" /\
    get_float o "pd" = Some (PrimFloat.mul (b64_lit 0.007) (b64_lit 100)) /\
    close (get_float o "pd") 0.7 0.000000001 = true /\
    get_float o "lgd" = Some (of_Z 40) /\
    close (get_float o "expectedLoss") 2.749 0.0005 = true.
Proof.
  unfold accurate_pow, within_one_ulp. intros H1 H2.
  apply (example_figures_for _ _ eq_refl eq_refl); cbn [In].
  - destruct H1 as [-> | [-> | ->]]; auto.
  - destruct H2 as [-> | [-> | ->]]; auto.
Qed.

End Binary64.

(** ** Instances in binary64 arithmetic

    The theorems above, at sample bonds and with a [pow] that is correctly
    rounded. *)

Section Instances64.

#[local] Existing Instance rounded_runtime.

(** The claimed figures 934.72, 981.90 and 0.01808 of the example are not
    those the source computes, even to one decimal. *)
Lemma example_figures_off_claim :
  close (cashflow_float (result64 example64) 1 "discounted") 934.72 0.1
    = false /\
  close (get_float (result64 example64) "marketPrice") 981.90 0.1 = false /\
  close (get_float (result64 example64) "pv01") 0.01808 0.1 = false /\
  close (get_float (result64 example64) "dv01") 0.01808 0.1 = false /\
  close (get_float (result64 example64) "cr01") 0.01808 0.1 = false.
Proof.
  vm_compute. repeat split.
Qed.

(** A zero-coupon bond at a yield of 100 percent over 1024 years has no
    price: 2.0 ** 1024 is beyond binary64 and [math.pow] raises.  At a
    yield of -50 percent over 1075 years, 0.5 ** 1075 underflows to 0.0 and
    the division raises. *)
Lemma zero_coupon_bond_without_price :
  calculate_metrics (bond64 1000 0 100 1024) = Raise OverflowError /\
  calculate_metrics (bond64 1000 0 (-50) 1075) = Raise ZeroDivisionError.
Proof.
  split; vm_compute; reflexivity.
Qed.

Lemma example_figures_witness :
  exists o,
    calculate_metrics example64 = Ok (JObj o) /\
    cashflow_years o = [Some (JInt 1); Some (JInt 2)] /\
    cashflow_float o 0 "coupon" = Some (of_Z 50) /\
    cashflow_float o 0 "principal" = Some PrimFloat.zero /\
    cashflow_float o 0 "total" = Some (of_Z 50) /\
    close (cashflow_float o 0 "discounted") 47.17 0.005 = true /\
    cashflow_float o 1 "coupon" = Some (of_Z 50) /\
    cashflow_float o 1 "principal" = Some (of_Z 1000) /\
    cashflow_float o 1 "total" = Some (of_Z 1050) /\
    close (cashflow_float o 1 "discounted") 934.50 0.005 = true /\
    close (get_float o "marketPrice") 981.67 0.005 = true /\
    close (get_float o "macaulayDuration") 1.9519 0.00005 = true /\
    close (get_float o "duration") 1.8415 0.00005 = true /\
    close (get_float o "pv01") 0.18077 0.000005 = true /\
    get_float o "dv01" = get_float o "pv01" /\
    get_float o "cr01" = get_float o "pv01" /\
    get_float o "pd" = Some (PrimFloat.mul (b64_lit 0.007) (b64_lit 100)) /\
    close (get_float o "pd") 0.7 0.000000001 = true /\
    get_float o "lgd" = Some (of_Z 40) /\
    close (get_float o "expectedLoss") 2.749 0.0005 = true.
Proof.
  apply (@example_figures rounded_runtime).
  - right. left. vm_compute. reflexivity.
  - right. left. vm_compute. reflexivity.
Defined.

(** A zero-coupon bond of two years at 6 percent. *)
Lemma zero_coupon_price_witness :
  exists p,
    pow (PrimFloat.add (b64_lit 1) (PrimFloat.div (of_Z 6) (b64_lit 100))) 2
      = Ok p /\
    get_float (result64 (bond64 1000 0 6 2)) "marketPrice"
      = Some (PrimFloat.div (of_Z 1000) p).
Proof.
  apply (@zero_coupon_price rounded_runtime (bond64 1000 0 6 2)
           (JStr "Corporate") (JStr "BBB") (JStr "Technology")
           (result64 (bond64 1000 0 6 2)) (of_Z 1000) (of_Z 6) 2).
  - repeat split; try (eexists; split; reflexivity).
  - reflexivity.
  - reflexivity.
  - lia.
  - reflexivity.
  - intros y p Hy Hp.
    assert (Hc : y = 1 \/ y = 2) by lia.
    destruct Hc as [-> | ->]; vm_compute in Hp; injection Hp as <-;
      reflexivity.
  - vm_compute. reflexivity.
Defined.

(** A matured bond, and one with a negative maturity. *)
Lemma nonpositive_maturity_gives_zero_metrics_witness :
  (exists o pd_frac lgd_frac,
     calculate_metrics (bond64 1000 5 6 0) = Ok (JObj o) /\
     table_get RATING_PD (JStr "BBB") 0.001 = Ok pd_frac /\
     table_get SECTOR_LGD (JStr "Technology") 0.40 = Ok lgd_frac /\
     dict_get o "cashflows" = Some (JList []) /\
     get_float o "marketPrice" = Some PrimFloat.zero /\
     get_float o "macaulayDuration" = Some PrimFloat.zero /\
     get_float o "duration" = Some PrimFloat.zero /\
     get_float o "convexity" = Some PrimFloat.zero /\
     get_float o "pv01" = Some PrimFloat.zero /\
     get_float o "dv01" = Some PrimFloat.zero /\
     get_float o "cr01" = Some PrimFloat.zero /\
     get_float o "expectedLoss" = Some PrimFloat.zero /\
     get_float o "pd" = Some (PrimFloat.mul pd_frac (b64_lit 100)) /\
     get_float o "lgd" = Some (PrimFloat.mul lgd_frac (b64_lit 100))) /\
  (exists o pd_frac lgd_frac,
     calculate_metrics (bond64 1000 5 6 (-3)) = Ok (JObj o) /\
     table_get RATING_PD (JStr "BBB") 0.001 = Ok pd_frac /\
     table_get SECTOR_LGD (JStr "Technology") 0.40 = Ok lgd_frac /\
     dict_get o "cashflows" = Some (JList []) /\
     get_float o "marketPrice" = Some PrimFloat.zero /\
     get_float o "macaulayDuration" = Some PrimFloat.zero /\
     get_float o "duration" = Some PrimFloat.zero /\
     get_float o "convexity" = Some PrimFloat.zero /\
     get_float o "pv01" = Some PrimFloat.zero /\
     get_float o "dv01" = Some PrimFloat.zero /\
     get_float o "cr01" = Some PrimFloat.zero /\
     get_float o "expectedLoss" = Some PrimFloat.zero /\
     get_float o "pd" = Some (PrimFloat.mul pd_frac (b64_lit 100)) /\
     get_float o "lgd" = Some (PrimFloat.mul lgd_frac (b64_lit 100))).
Proof.
  split.
  - apply (@nonpositive_maturity_gives_zero_metrics rounded_runtime
             (bond64 1000 5 6 0) (JStr "Corporate") (JStr "BBB")
             (JStr "Technology") (of_Z 1000) (of_Z 5) (of_Z 6) 0);
      [ repeat split; try (eexists; split; reflexivity) | lia ].
  - apply (@nonpositive_maturity_gives_zero_metrics rounded_runtime
             (bond64 1000 5 6 (-3)) (JStr "Corporate") (JStr "BBB")
             (JStr "Technology") (of_Z 1000) (of_Z 5) (of_Z 6) (-3));
      [ repeat split; try (eexists; split; reflexivity) | lia ].
Defined.

(** A bond at a yield of -100 percent. *)
Lemma zero_discount_factor_raises_witness :
  calculate_metrics (bond64 1000 5 (-100) 2) = Raise ZeroDivisionError.
Proof.
  apply (@zero_discount_factor_raises rounded_runtime
           (bond64 1000 5 (-100) 2) (JStr "Corporate") (JStr "BBB")
           (JStr "Technology") (of_Z 1000) (of_Z 5) (of_Z (-100)) 2).
  - repeat split; try (eexists; split; reflexivity).
  - lia.
  - reflexivity.
  - reflexivity.
Defined.

Lemma pd_and_lgd_are_percentages_witness :
  exists pd lgd,
    get_float (result64 example64) "pd" = Some pd /\
    PrimFloat.leb PrimFloat.zero pd = true /\
    PrimFloat.leb pd (b64_lit 100) = true /\
    get_float (result64 example64) "lgd" = Some lgd /\
    PrimFloat.leb PrimFloat.zero lgd = true /\
    PrimFloat.leb lgd (b64_lit 100) = true.
Proof.
  apply (@pd_and_lgd_are_percentages rounded_runtime example64).
  vm_compute. reflexivity.
Defined.

End Instances64.
